(** * Lightdash: query-results hooks and the Google Sheets export client

    A shallow embedding of
    - the query-results hooks of the web client ([useQueryResults],
      [useChartAndResults], [useUnderlyingDataResults] and the fetchers
      they call), and
    - [GoogleDriveClient] of the backend,
    together with the properties of these two pieces of code. *)

From stdpp Require Import base option list gmap sets strings.
From stdpp Require Import sorting.
From Stdlib Require Import ZArith Lia Ascii String.

Open Scope string_scope.
Open Scope Z_scope.
Open Scope list_scope.

(** ** JavaScript values shared by both parts *)

Module Js.

(** A property that may be [undefined], [null] or hold a value. *)
Inductive Nullable (A : Type) : Type :=
| Undefined
| Null
| Val (a : A).
Arguments Undefined {A}.
Arguments Null {A}.
Arguments Val {A} a.

(** [x ?? undefined] *)
Definition nullish_to_undefined {A} (x : Nullable A) : Nullable A :=
  match x with
  | Val a => Val a
  | _ => Undefined
  end.

(** Truthiness of an optional string: [undefined] and [''] are falsy. *)
Definition truthy_string (s : option string) : bool :=
  match s with
  | Some s => negb (String.eqb s "")
  | None => false
  end.

(** Truthiness of an optional number: [undefined] and [0] are falsy. *)
Definition truthy_number (n : option Z) : bool :=
  match n with
  | Some n => negb (n =? 0)
  | None => false
  end.

(** Optional chaining [o?.f] where the property [f] may itself be absent. *)
Definition chain {A B} (o : option A) (f : A -> option B) : option B :=
  match o with
  | Some a => f a
  | None => None
  end.

(** An optional string inside a template literal. *)
Definition template (missing : string) (s : option string) : string :=
  default missing s.

(** [String.prototype.includes] *)
Definition includes (s sub : string) : bool :=
  match String.index 0 sub s with
  | Some _ => true
  | None => false
  end.

(** [s.replaceAll(from, to)] for one-character patterns. *)
Fixpoint replaceAll (from to : ascii) (s : string) : string :=
  match s with
  | EmptyString => EmptyString
  | String c rest =>
      String (if Ascii.eqb c from then to else c) (replaceAll from to rest)
  end.

(** [Array.prototype.indexOf] on an array of strings: [-1] when absent. *)
Fixpoint indexOf_from (i : Z) (xs : list string) (x : string) : Z :=
  match xs with
  | [] => -1
  | y :: ys => if String.eqb y x then i else indexOf_from (i + 1) ys x
  end.

Definition indexOf (xs : list string) (x : string) : Z := indexOf_from 0 xs x.

(** [Array.prototype.includes] on an array of strings. *)
Definition array_includes (xs : list string) (x : string) : bool :=
  existsb (String.eqb x) xs.

(** [Array.prototype.join] on strings. *)
Definition join (sep : string) (xs : list string) : string :=
  String.concat sep xs.

End Js.

(** ** The query-results hooks *)

Module QueryResults.
Import Js.

(** What the hooks import from [@lightdash/common] and
    [../utils/dateFilter]: the types are left abstract, the two filter
    conversions are arbitrary functions.  [DateGranularity] is an enum of
    non-empty strings, so a granularity that is present is truthy. *)
Class Common := {
  ResultRow : Type;
  ItemsMap : Type;
  Filters : Type;
  DashboardFilters : Type;
  DateGranularity : Type;
  DateDimension : Type;
  MetricQueryRest : Type;
  ChartAndResultsRest : Type;
  ApiError : Type;
  QueryExecutionContext : Type;
  EXPLORE : QueryExecutionContext;
  convertDateFilters : Filters -> Filters;
  convertDateDashboardFilters : DashboardFilters -> DashboardFilters;
  (** [!!metadata.hasADateDimension] for a value that is present *)
  dateDimension_truthy : DateDimension -> bool;
}.

Section Model.
Context `{Common}.

Record MetricQueryMetadata := {
  hasADateDimension : option DateDimension;
}.

Record MetricQuery := {
  mq_filters : Filters;
  mq_timezone : Nullable string;
  mq_metadata : option MetricQueryMetadata;
  mq_rest : MetricQueryRest;
}.

Record QueryResultsProps := {
  projectUuid : string;
  tableId : string;
  query : option MetricQuery;
  csvLimit : Nullable Z;
  chartUuid : option string;
  chartVersionUuid : option string;
  dateZoomGranularity : option DateGranularity;
  context : option string;
}.

Record SortField := {
  fieldId : string;
  descending : bool;
}.

(** The [query] member of [PaginatedMetricQueryRequestParams]. *)
Record PaginatedQuery := {
  pq_query : MetricQuery;
  pq_exploreName : string;
  pq_granularity : option DateGranularity;
}.

Record PaginatedMetricQueryRequestParams := {
  pp_context : QueryExecutionContext;
  pp_query : PaginatedQuery;
}.

(** Request bodies, before [JSON.stringify]. *)
Inductive Body :=
| BodyUndefined
| BodyChartAndResults
    (dashboardUuid : option string) (dashboardFilters : DashboardFilters)
    (dashboardSorts : list SortField) (granularity : option DateGranularity)
    (invalidateCache : bool) (autoRefresh : option bool)
| BodyRunQuery
    (timezoneFixQuery : option MetricQuery)
    (granularity : option DateGranularity) (csvLimit : Nullable Z)
    (context : option string)
| BodyUnderlyingData (timezoneFixQuery : MetricQuery)
| BodyPaginatedQuery (data : PaginatedMetricQueryRequestParams)
| BodyNextPage (queryUuid : string) (page : option Z).

Record ApiRequest := {
  url : string;
  version : option string;
  method : string;
  body : Body;
}.

Record CacheMetadata := {
  cacheHit : bool;
}.

Record ApiQueryResults := {
  qr_queryUuid : option string;
  qr_metricQuery : MetricQuery;
  qr_cacheMetadata : CacheMetadata;
  qr_rows : list ResultRow;
  qr_fields : ItemsMap;
}.

Record ApiPaginatedQueryResults := {
  pg_queryUuid : string;
  pg_metricQuery : MetricQuery;
  pg_rows : list ResultRow;
  pg_fields : ItemsMap;
  pg_nextPage : option Z;
}.

Record ApiChartAndResults := {
  car_metricQuery : option MetricQuery;
  car_rest : ChartAndResultsRest;
}.

(** The type argument of [lightdashApi<T>]. *)
Inductive ResponseKind :=
| KQueryResults
| KChartAndResults
| KPaginatedQueryResults.

Definition payload (k : ResponseKind) : Type :=
  match k with
  | KQueryResults => ApiQueryResults
  | KChartAndResults => ApiChartAndResults
  | KPaginatedQueryResults => ApiPaginatedQueryResults
  end.

(** *** Promises over the backend

    The backend is a deterministic function of the requests received so
    far and of the current request.  A computation threads the list of
    requests issued (oldest first) and either resolves, rejects, or is
    still looping when the fuel of a [while] loop is used up. *)

Definition Server : Type :=
  forall k : ResponseKind, list ApiRequest -> ApiRequest -> ApiError + payload k.

Inductive Failure :=
| ApiFailure (e : ApiError)
| ParameterError (message : string).

Inductive Outcome (A : Type) :=
| Resolved (a : A)
| Rejected (e : Failure)
| Unfinished.
Arguments Resolved {A} a.
Arguments Rejected {A} e.
Arguments Unfinished {A}.

Definition Api (A : Type) : Type :=
  Server -> list ApiRequest -> Outcome A * list ApiRequest.

Definition resolve {A} (a : A) : Api A := fun _ sent => (Resolved a, sent).

Definition reject {A} (e : Failure) : Api A := fun _ sent => (Rejected e, sent).

Definition unfinished {A} : Api A := fun _ sent => (Unfinished, sent).

Definition await {A B} (p : Api A) (k : A -> Api B) : Api B :=
  fun srv sent =>
    match p srv sent with
    | (Resolved a, sent') => k a srv sent'
    | (Rejected e, sent') => (Rejected e, sent')
    | (Unfinished, sent') => (Unfinished, sent')
    end.

(** Modelled from the spec: [lightdashApi] of [../api], which is not part of
    the sources at hand.  A network call suspends the caller until the
    response or the failure: the request is recorded as sent, and the
    promise resolves with the payload or rejects with the API error. *)
Definition lightdashApi (k : ResponseKind) (req : ApiRequest) : Api (payload k) :=
  fun srv sent =>
    match srv k sent req with
    | inr data => (Resolved data, sent ++ [req])
    | inl err => (Rejected (ApiFailure err), sent ++ [req])
    end.

Notation "'do' x <- p ; k" := (await p (fun x => k))
  (at level 10, x name, p at level 100, k at level 200).

(** *** The fetchers *)

Definition getChartResults (chartUuid context : option string)
  : Api ApiQueryResults :=
  lightdashApi KQueryResults
    {| url := "/saved/" +:+ template "undefined" chartUuid +:+ "/results"
              +:+ (if truthy_string context
                   then "?context=" +:+ template "undefined" context
                   else "");
       version := None;
       method := "POST";
       body := BodyUndefined |}.

Definition getChartAndResults
    (chartUuid dashboardUuid : option string)
    (dashboardFilters : DashboardFilters) (invalidateCache : option bool)
    (dashboardSorts : list SortField) (granularity : option DateGranularity)
    (autoRefresh : option bool) (context : option string)
  : Api ApiChartAndResults :=
  lightdashApi KChartAndResults
    {| url := "/saved/" +:+ template "null" chartUuid +:+ "/chart-and-results"
              +:+ (if truthy_string context
                   then "?context=" +:+ template "undefined" context
                   else "");
       version := None;
       method := "POST";
       body := BodyChartAndResults dashboardUuid dashboardFilters
                 dashboardSorts granularity
                 (bool_decide (invalidateCache = Some true)) autoRefresh |}.

Definition getQueryResults (data : QueryResultsProps) : Api ApiQueryResults :=
  let timezoneFixQuery :=
    (fun q =>
       {| mq_filters := convertDateFilters (mq_filters q);
          mq_timezone := nullish_to_undefined (mq_timezone q);
          mq_metadata := mq_metadata q;
          mq_rest := mq_rest q |}) <$> query data in
  lightdashApi KQueryResults
    {| url := "/projects/" +:+ projectUuid data +:+ "/explores/"
              +:+ tableId data +:+ "/runQuery";
       version := None;
       method := "POST";
       body := BodyRunQuery timezoneFixQuery (dateZoomGranularity data)
                 (csvLimit data) (context data) |}.

Definition getUnderlyingDataResults
    (projectUuid : option string) (tableId : string) (query : MetricQuery)
  : Api ApiQueryResults :=
  let timezoneFixQuery :=
    {| mq_filters := convertDateFilters (mq_filters query);
       mq_timezone := mq_timezone query;
       mq_metadata := mq_metadata query;
       mq_rest := mq_rest query |} in
  lightdashApi KQueryResults
    {| url := "/projects/" +:+ template "undefined" projectUuid
              +:+ "/explores/" +:+ tableId +:+ "/runUnderlyingDataQuery";
       version := None;
       method := "POST";
       body := BodyUnderlyingData timezoneFixQuery |}.

Definition getChartVersionResults (chartUuid versionUuid : string)
  : Api ApiQueryResults :=
  lightdashApi KQueryResults
    {| url := "/saved/" +:+ chartUuid +:+ "/version/" +:+ versionUuid
              +:+ "/results";
       version := None;
       method := "POST";
       body := BodyUndefined |}.

(** The request of the [while] loop for the page after [currentPage]. *)
Definition nextPageRequest
    (projectUuid : string) (firstPage currentPage : ApiPaginatedQueryResults)
  : ApiRequest :=
  {| url := "/projects/" +:+ projectUuid +:+ "/query";
     version := Some "v2";
     method := "POST";
     body := BodyNextPage (pg_queryUuid firstPage) (pg_nextPage currentPage) |}.

(** [while (currentPage.nextPage) { ... }]: one unit of fuel per
    iteration; the test comes first, so a loop that stops needs no fuel. *)
Fixpoint getQueryPaginatedResults_loop
    (fuel : nat) (projectUuid : string)
    (firstPage currentPage : ApiPaginatedQueryResults)
    (allRows : list ResultRow) : Api (list ResultRow) :=
  if truthy_number (pg_nextPage currentPage) then
    match fuel with
    | O => unfinished
    | S fuel' =>
        do nextPage <- lightdashApi KPaginatedQueryResults
                         (nextPageRequest projectUuid firstPage currentPage);
        getQueryPaginatedResults_loop fuel' projectUuid firstPage nextPage
          (allRows ++ pg_rows nextPage)
    end
  else resolve allRows.

(** The request for the first page. *)
Definition firstPageRequest
    (projectUuid : string) (data : PaginatedMetricQueryRequestParams)
  : ApiRequest :=
  {| url := "/projects/" +:+ projectUuid +:+ "/query";
     version := Some "v2";
     method := "POST";
     body := BodyPaginatedQuery data |}.

(** Aggregates pagination results for a query *)
Definition getQueryPaginatedResults
    (fuel : nat) (projectUuid : string)
    (data : PaginatedMetricQueryRequestParams) : Api ApiQueryResults :=
  do firstPage <- lightdashApi KPaginatedQueryResults
                    (firstPageRequest projectUuid data);
  do allRows <- getQueryPaginatedResults_loop fuel projectUuid
                  firstPage firstPage (pg_rows firstPage);
  resolve
    {| qr_queryUuid := Some (pg_queryUuid firstPage);
       qr_metricQuery := pg_metricQuery firstPage;
       qr_cacheMetadata := {| cacheHit := false |};
       qr_rows := allRows;
       qr_fields := pg_fields firstPage |}.

(** A backend that, once [sent] has been received and [currentPage]
    returned, serves exactly the pages [rest] to the requests of the loop:
    every page but the last names a next page. *)
Fixpoint servesPages
    (srv : Server) (projectUuid : string) (firstPage : ApiPaginatedQueryResults)
    (sent : list ApiRequest) (currentPage : ApiPaginatedQueryResults)
    (rest : list ApiPaginatedQueryResults) : Prop :=
  match rest with
  | [] => truthy_number (pg_nextPage currentPage) = false
  | nextPage :: rest' =>
      truthy_number (pg_nextPage currentPage) = true
      /\ srv KPaginatedQueryResults sent
           (nextPageRequest projectUuid firstPage currentPage) = inr nextPage
      /\ servesPages srv projectUuid firstPage
           (sent ++ [nextPageRequest projectUuid firstPage currentPage])
           nextPage rest'
  end.

(** *** The hooks

    A hook is modelled by the options it hands to [useQuery], plus the
    state it writes. *)

Inductive KeyPart :=
| KString (s : string)
| KNullableString (s : option string)
| KOptBool (b : option bool)
| KDashboardFilters (f : DashboardFilters)
| KGranularity (g : DateGranularity)
| KMetricQueryJson (q : MetricQuery)
| KProps (data : option QueryResultsProps).

Inductive RetryOption :=
| RetryFlag (b : bool)
| RetryCount (n : nat).

Record UseQueryOptions (A : Type) := {
  queryKey : list KeyPart;
  queryFn : Api A;
  enabled : option bool;
  retry : option RetryOption;
  refetchOnMount : option bool;
}.
Arguments queryKey {A} _.
Arguments queryFn {A} _.
Arguments enabled {A} _.
Arguments retry {A} _.
Arguments refetchOnMount {A} _.

Definition useUnderlyingDataResults
    (projectUuid : option string) (tableId : string) (query : MetricQuery)
  : UseQueryOptions ApiQueryResults :=
  {| queryKey := [KString "underlyingDataResults";
                  KNullableString projectUuid;
                  KMetricQueryJson query];
     queryFn := getUnderlyingDataResults projectUuid tableId query;
     enabled := None;
     retry := Some (RetryFlag false);
     refetchOnMount := None |}.

(** [queryClient.getQueryData] *)
Definition QueryClient : Type := list KeyPart -> option ApiChartAndResults.

(** The state behind [setChartsWithDateZoomApplied] of the dashboard
    context: a set of chart identifiers ([None] inside the set is [null]),
    or [undefined].  The setter replaces the state by what the updater
    returns; [add] and [clear] change the set in place and the updater
    returns that same set, so the contents afterwards are the same either
    way. *)
Definition ChartsWithDateZoomApplied : Type := option (gset (option string)).

(** The updater passed to [setChartsWithDateZoomApplied]. *)
Definition setChartsWithDateZoomApplied_updater
    (hasADateDimension : bool) (granularity : option DateGranularity)
    (chartUuid : option string) (prev : ChartsWithDateZoomApplied)
  : ChartsWithDateZoomApplied :=
  if hasADateDimension then
    match granularity with
    | Some _ => Some (default ∅ prev ∪ {[ chartUuid ]})
    | None => (fun _ => ∅) <$> prev
    end
  else prev.

Definition sortKey (dashboardSorts : list SortField) : string :=
  join ","
    (map (fun ds => fieldId ds +:+ "."
                    +:+ (if descending ds then "true" else "false"))
         dashboardSorts).

(** The [queryKey] memoised by [useChartAndResults]. *)
Definition savedChartResultsKey
    (chartUuid dashboardUuid : option string)
    (dashboardFilters : DashboardFilters) (invalidateCache : option bool)
    (dashboardSorts : list SortField) (autoRefresh : option bool)
  : list KeyPart :=
  [KString "savedChartResults";
   KNullableString chartUuid;
   KNullableString dashboardUuid;
   KDashboardFilters dashboardFilters;
   KOptBool invalidateCache;
   KString (sortKey dashboardSorts);
   KOptBool autoRefresh].

(** [!!apiChartAndResults?.metricQuery?.metadata?.hasADateDimension] *)
Definition cachedHasADateDimension
    (apiChartAndResults : option ApiChartAndResults) : bool :=
  match chain (chain (chain apiChartAndResults car_metricQuery) mq_metadata)
              hasADateDimension with
  | Some d => dateDimension_truthy d
  | None => false
  end.

Definition useChartAndResults
    (queryClient : QueryClient)
    (chartUuid dashboardUuid : option string)
    (dashboardFilters : DashboardFilters) (dashboardSorts : list SortField)
    (invalidateCache : option bool) (granularity : option DateGranularity)
    (autoRefresh : option bool) (context : option string)
    (chartsWithDateZoomApplied : ChartsWithDateZoomApplied)
  : ChartsWithDateZoomApplied * UseQueryOptions ApiChartAndResults :=
  let queryKey :=
    savedChartResultsKey chartUuid dashboardUuid dashboardFilters
      invalidateCache dashboardSorts autoRefresh in
  let apiChartAndResults := queryClient queryKey in
  (* [dashboardFilters] is an object, hence truthy *)
  let timezoneFixFilters := convertDateDashboardFilters dashboardFilters in
  let hasADateDimension := cachedHasADateDimension apiChartAndResults in
  let fetchChartAndResults :=
    getChartAndResults chartUuid dashboardUuid timezoneFixFilters
      invalidateCache dashboardSorts granularity autoRefresh context in
  (setChartsWithDateZoomApplied_updater hasADateDimension granularity
     chartUuid chartsWithDateZoomApplied,
   {| queryKey := match granularity with
                  | Some g => if hasADateDimension
                              then queryKey ++ [KGranularity g]
                              else queryKey
                  | None => queryKey
                  end;
      queryFn := fetchChartAndResults;
      enabled := Some (truthy_string chartUuid && truthy_string dashboardUuid);
      retry := Some (RetryFlag false);
      refetchOnMount := Some false |}).

(** [queryWithOverrides] of the paginated branch of [useQueryResults]. *)
Definition queryWithOverrides (data : QueryResultsProps) (query : MetricQuery)
  : PaginatedMetricQueryRequestParams :=
  {| pp_context := EXPLORE;
     pp_query :=
       {| pq_query :=
            {| mq_filters := convertDateFilters (mq_filters query);
               mq_timezone := nullish_to_undefined (mq_timezone query);
               mq_metadata := mq_metadata query;
               mq_rest := mq_rest query |};
          pq_exploreName := tableId data;
          pq_granularity := dateZoomGranularity data |} |}.

(** The [queryFn] of [useQueryResults]. *)
Definition useQueryResults_queryFn
    (fuel : nat) (queryPaginationEnabled : bool)
    (data : option QueryResultsProps) : Api ApiQueryResults :=
  if truthy_string (chain data chartUuid)
     && truthy_string (chain data chartVersionUuid) then
    getChartVersionResults (template "undefined" (chain data chartUuid))
      (template "undefined" (chain data chartVersionUuid))
  else if truthy_string (chain data chartUuid) then
    getChartResults (chain data chartUuid) (chain data context)
  else
    match data with
    | Some data =>
        match query data with
        | Some query =>
            if queryPaginationEnabled then
              getQueryPaginatedResults fuel (projectUuid data)
                (queryWithOverrides data query)
            else getQueryResults data
        | None => reject (ParameterError "Missing QueryResultsProps")
        end
    | None => reject (ParameterError "Missing QueryResultsProps")
    end.

Definition useQueryResults
    (fuel : nat) (queryPaginationEnabled : bool)
    (data : option QueryResultsProps) : UseQueryOptions ApiQueryResults :=
  {| queryKey := [KString "query-all-results"; KProps data];
     queryFn := useQueryResults_queryFn fuel queryPaginationEnabled data;
     enabled := Some (bool_decide (is_Some data));
     retry := None;
     refetchOnMount := None |}.

(** The effect of [useQueryResults] that runs on [result.error]: the
    calls made to [setErrorResponse]. *)
Definition useQueryResults_onError (error : option Failure) : list Failure :=
  match error with
  | Some e => [e]
  | None => []
  end.

(** *** What [useQuery] does with a failure

    [useQuery] and the query client whose defaults it reads belong to
    [@tanstack/react-query] and to the shell of the application; neither
    is among the sources at hand. *)

(** What [useQuery] returns, as far as the hooks read it
    ([result.error] in [useQueryResults]). *)
Record UseQueryResult (A : Type) := {
  data : option A;
  error : option Failure;
}.
Arguments data {A} _.
Arguments error {A} _.

(** Modelled from the spec: "Third-party caching/query library behavior
    (cache key equality, retry suppression, stale-data return) is an
    external collaborator contract in the source", with the "policy = at
    most one in-flight request per key, no retry on failure", and
    "Retrieval queries are never automatically retried; failures propagate
    to the caller's error-reporting channel".  The fetch of an enabled
    query under that policy: the query function is called once, and what
    it settles with is the result, [data] when it resolves and [error]
    when it rejects.  The policy is what holds when the hook passes no
    [retry] option, and [retry: false] asks for the same; of a hook that
    asks for retries the model says nothing. *)
Definition useQuery_fetch {A} (options : UseQueryOptions A)
    (srv : Server) (sent : list ApiRequest)
  : option (UseQueryResult A * list ApiRequest) :=
  match retry options with
  | Some (RetryFlag true) | Some (RetryCount _) => None
  | Some (RetryFlag false) | None =>
      Some
        match queryFn options srv sent with
        | (Resolved a, sent') => ({| data := Some a; error := None |}, sent')
        | (Rejected e, sent') => ({| data := None; error := Some e |}, sent')
        | (Unfinished, sent') => ({| data := None; error := None |}, sent')
        end
  end.

(** A backend that, once [sent] has been received and [currentPage]
    returned, serves the pages [rest] to the requests of the loop and
    answers the request after them with the error [err]. *)
Fixpoint servesPagesThenFails
    (srv : Server) (projectUuid : string) (firstPage : ApiPaginatedQueryResults)
    (sent : list ApiRequest) (currentPage : ApiPaginatedQueryResults)
    (rest : list ApiPaginatedQueryResults) (err : ApiError) : Prop :=
  match rest with
  | [] =>
      truthy_number (pg_nextPage currentPage) = true
      /\ srv KPaginatedQueryResults sent
           (nextPageRequest projectUuid firstPage currentPage) = inl err
  | nextPage :: rest' =>
      truthy_number (pg_nextPage currentPage) = true
      /\ srv KPaginatedQueryResults sent
           (nextPageRequest projectUuid firstPage currentPage) = inr nextPage
      /\ servesPagesThenFails srv projectUuid firstPage
           (sent ++ [nextPageRequest projectUuid firstPage currentPage])
           nextPage rest' err
  end.

(** A backend that answers every paginated request with a page that names
    a next page. *)
Definition alwaysNamesNextPage (srv : Server) : Prop :=
  forall (sent : list ApiRequest) (req : ApiRequest),
    exists page, srv KPaginatedQueryResults sent req = inr page
                 /\ truthy_number (pg_nextPage page) = true.

End Model.

Arguments Resolved {_ A} a.
Arguments Rejected {_ A} e.
Arguments Unfinished {_ A}.

Arguments queryKey {_ A} _.
Arguments queryFn {_ A} _.
Arguments enabled {_ A} _.
Arguments retry {_ A} _.
Arguments refetchOnMount {_ A} _.

Arguments data {_ A} _.
Arguments error {_ A} _.

End QueryResults.

(** ** The Google Sheets export client *)

Module GoogleDrive.
Import Js.

(** Cell values ([AnyType]).  Numbers are carried as integers: the client
    only ever prints them.  A [Set] is its elements in insertion order, a
    plain object its own properties in enumeration order, a function the
    text that [String] gives for it.  Symbols and bigints are left out. *)
#[warnings="-register-all"] Inductive Value :=
| VUndefined
| VNull
| VBool (b : bool)
| VNum (n : Z)
| VStr (s : string)
| VArray (elements : list Value)
| VRegExp (source flags : string)
| VSet (elements : list Value)
| VDate (time : Z)
| VBoxedNumber (n : Z)
| VBoxedBoolean (b : bool)
| VBoxedString (s : string)
| VObject (properties : list (string * Value))
| VFunction (source : string).

(** [!!value] *)
Definition truthy (value : Value) : bool :=
  match value with
  | VUndefined | VNull => false
  | VBool b => b
  | VNum n => negb (n =? 0)
  | VStr s => negb (String.eqb s "")
  | _ => true
  end.

(** The methods that every plain object inherits from [Object.prototype],
    [constructor] and [__proto__] apart. *)
Definition objectPrototypeMethods : list string :=
  ["__defineGetter__"; "__defineSetter__"; "__lookupGetter__";
   "__lookupSetter__"; "hasOwnProperty"; "isPrototypeOf";
   "propertyIsEnumerable"; "toLocaleString"; "toString"; "valueOf"].

(** [object[key]] for a plain object that has no own property [key]: the
    member of [Object.prototype] of that name, if there is one. *)
Definition inherited (key : string) : option Value :=
  if String.eqb key "constructor" then
    Some (VFunction "function Object() { [native code] }")
  else if String.eqb key "__proto__" then Some (VObject [])
  else if array_includes objectPrototypeMethods key then
    Some (VFunction ("function " +:+ key +:+ "() { [native code] }"))
  else None.

(** What the client imports from [@lightdash/common] and from the
    JavaScript runtime. *)
Class Common := {
  Item : Type;
  TimeFrames : Type;
  (** [isField(item)] and [isDimension(item)] for an item that is present;
      both are false on [undefined] *)
  isField : Item -> bool;
  isDimension : Item -> bool;
  (** [item.type === DimensionType.DATE] *)
  type_is_DATE : Item -> bool;
  timeInterval : Item -> option TimeFrames;
  formatDate : Value -> option TimeFrames -> string;
  getItemLabel : Item -> string;
  getItemLabelWithoutTableName : Item -> string;
  JSON_stringify : Value -> string;
  number_toString : Z -> string;
  date_toString : Z -> string;
  (** A member inherited from [Object.prototype], as what the code takes
      it for when it reads it off the item map *)
  inheritedItem : Value -> Item;
}.

(** *** Errors *)

Record ResponseData := {
  error : option string;
  error_description : option string;
}.

Record ErrorResponse := {
  status : option Z;
  data : option ResponseData;
}.

Record ErrorItem := {
  message : option string;
}.

(** An error object thrown by the [googleapis] SDK. *)
Record ProviderError := {
  code : option Z;
  errors : option (list ErrorItem);
  response : option ErrorResponse;
  rendering : string;
}.

(** Everything the client can throw.  The [LightdashError] classes carry a
    [statusCode], not a [code], and no [errors] or [response]. *)
Inductive Thrown :=
| ForbiddenError (message : string)
| MissingConfigError (message : string)
| GoogleSheetsTransientError (cause : Thrown)
| UnexpectedGoogleSheetsError (message : string)
| TypeError
| Raised (e : ProviderError).

Definition thrown_code (err : Thrown) : option Z :=
  match err with
  | Raised e => code e
  | _ => None
  end.

Definition thrown_errors (err : Thrown) : option (list ErrorItem) :=
  match err with
  | Raised e => errors e
  | _ => None
  end.

Definition thrown_response (err : Thrown) : option ErrorResponse :=
  match err with
  | Raised e => response e
  | _ => None
  end.

(** *** The provider *)

Record SheetProperties := {
  title : option string;
}.

Record Sheet := {
  properties : option SheetProperties;
}.

(** [response.data] of a provider call. *)
Record Spreadsheet := {
  spreadsheetId : option string;
  sheets : option (list Sheet);
}.

Inductive SheetsCall :=
| AuthFromJSON (client_id client_secret : option string) (refresh_token : string)
| SpreadsheetsBatchUpdateAddSheet (spreadsheetId title : string)
| SpreadsheetsCreate (title : string)
| SpreadsheetsGet (spreadsheetId : string)
| ValuesClear (spreadsheetId range : string)
| ValuesUpdate (spreadsheetId range valueInputOption : string)
               (values : list (list Value)).

Inductive Reply :=
| Replies (data : Spreadsheet)
| Throws (e : ProviderError).

(** The provider answers a call as a function of the calls made before. *)
Definition Provider : Type := list SheetsCall -> SheetsCall -> Reply.

Inductive LogEntry :=
| LogDebug (text : string)
| LogInfo (text : string)
| LogError (text : string) (err : Thrown).

Record World := {
  calls : list SheetsCall;
  log : list LogEntry;
}.

Inductive Result (A : Type) :=
| Returned (a : A)
| Threw (err : Thrown).
Arguments Returned {A} a.
Arguments Threw {A} err.

Definition Async (A : Type) : Type := Provider -> World -> Result A * World.

Definition ret {A} (a : A) : Async A := fun _ w => (Returned a, w).

Definition throw {A} (err : Thrown) : Async A := fun _ w => (Threw err, w).

Definition await {A B} (p : Async A) (k : A -> Async B) : Async B :=
  fun provider w =>
    match p provider w with
    | (Returned a, w') => k a provider w'
    | (Threw err, w') => (Threw err, w')
    end.

(** [try { p } catch (err) { handler }] and [p.catch(handler)] *)
Definition try_catch {A} (p : Async A) (handler : Thrown -> Async A) : Async A :=
  fun provider w =>
    match p provider w with
    | (Returned a, w') => (Returned a, w')
    | (Threw err, w') => handler err provider w'
    end.

Definition call (c : SheetsCall) : Async Spreadsheet :=
  fun provider w =>
    let w' := {| calls := calls w ++ [c]; log := log w |} in
    match provider (calls w) c with
    | Replies data => (Returned data, w')
    | Throws e => (Threw (Raised e), w')
    end.

Definition logger (entry : LogEntry) : Async unit :=
  fun _ w => (Returned tt, {| calls := calls w; log := log w ++ [entry] |}).

Notation "'do' x <- p ; k" := (await p (fun x => k))
  (at level 10, x name, p at level 100, k at level 200).
Notation "p ;; k" := (await p (fun _ => k))
  (at level 100, k at level 200, right associativity).

(** *** The client *)

Record GoogleAuthConfig := {
  oauth2ClientId : option string;
  oauth2ClientSecret : option string;
}.

Record GoogleDriveClient := {
  lightdashConfig : GoogleAuthConfig;
  isEnabled : bool;
}.

Definition constructor (lightdashConfig : GoogleAuthConfig) : GoogleDriveClient :=
  {| lightdashConfig := lightdashConfig;
     isEnabled := bool_decide (is_Some (oauth2ClientId lightdashConfig))
                  && bool_decide (is_Some (oauth2ClientSecret lightdashConfig)) |}.

(** [google.auth.fromJSON(credentials)] and [new google.auth.GoogleAuth]. *)
Definition authCall (this : GoogleDriveClient) (refreshToken : string)
  : SheetsCall :=
  AuthFromJSON (oauth2ClientId (lightdashConfig this))
    (oauth2ClientSecret (lightdashConfig this)) refreshToken.

Definition getCredentials (this : GoogleDriveClient) (refreshToken : string)
  : Async unit :=
  try_catch
    (do _ <- call (authCall this refreshToken);
     ret tt)
    (fun err =>
       throw (ForbiddenError
                ("Failed to get credentials: "
                 +:+ match err with
                     | Raised e => rendering e
                     | _ => ""
                     end))).

Definition catchForbiddenError {A} (promise : Async A) : Async A :=
  try_catch promise
    (fun err =>
       let response := thrown_response err in
       let data := chain response data in
       if bool_decide (chain response status = Some 401) then
         throw (ForbiddenError
                  ("Failed to authorize: "
                   +:+ template "undefined" (chain data error) +:+ ": "
                   +:+ template "undefined" (chain data error_description)))
       else if bool_decide (chain response status = Some 400)
               && bool_decide (chain data error = Some "invalid_grant") then
         throw (ForbiddenError
                  ("Failed to refresh token: "
                   +:+ template "undefined" (chain data error) +:+ ": "
                   +:+ template "undefined" (chain data error_description)))
       else throw err).

(** [error?.errors[0]?.message.includes(tabName)]: reading [[0]] of a
    missing [errors], or [includes] of a missing [message], is a
    [TypeError]; a missing first element makes the whole chain undefined. *)
Definition mentionsTab (error : Thrown) (tabName : string) : Async bool :=
  match thrown_errors error with
  | None => throw TypeError
  | Some items =>
      match head items with
      | None => ret false
      | Some item =>
          match message item with
          | None => throw TypeError
          | Some text => ret (includes text tabName)
          end
      end
  end.

Definition createNewTab
    (this : GoogleDriveClient) (refreshToken fileId tabName : string)
  : Async string :=
  if negb (isEnabled this) then
    throw (MissingConfigError "Google Drive is not enabled")
  else
    do auth <- getCredentials this refreshToken;
    let tabTitle := replaceAll ":" "." tabName in
    do _ <- try_catch
              (do _ <- catchForbiddenError
                         (call (SpreadsheetsBatchUpdateAddSheet fileId tabTitle));
               ret tt)
              (fun error =>
                 do alreadyExists <-
                      (if bool_decide (thrown_code error = Some 400)
                       then mentionsTab error tabName
                       else ret false);
                 if alreadyExists then
                   logger (LogDebug
                             ("Google sheet tab already exists, we will overwrite it: "
                              +:+ template "undefined"
                                    (chain (chain (thrown_errors error) head)
                                           message)))
                 else if bool_decide (thrown_code error = Some 500) then
                   throw (GoogleSheetsTransientError error)
                 else ret tt);
    ret tabTitle.

Definition createNewSheet
    (this : GoogleDriveClient) (refreshToken title : string)
  : Async Spreadsheet :=
  if negb (isEnabled this) then
    throw (MissingConfigError "Google Drive is not enabled")
  else
    do auth <- getCredentials this refreshToken;
    do response <- catchForbiddenError (call (SpreadsheetsCreate title));
    ret response.

(** The [try] block of [clearTabName]. *)
Definition clearTabName_try (fileId : string) (tabName : option string)
  : Async unit :=
    (match tabName with
     | None =>
         do spreadsheet <- catchForbiddenError (call (SpreadsheetsGet fileId));
         do firstSheetName <-
           match sheets spreadsheet with
           | None => ret None
           | Some all =>
               match head all with
               | None => throw TypeError
               | Some first => ret (chain (properties first) title)
               end
           end;
         if negb (truthy_string firstSheetName) then
           throw (UnexpectedGoogleSheetsError
                    "Unable to find the first sheet name in the spreadsheet")
         else
           logger (LogDebug ("Clearing first sheet name "
                             +:+ template "undefined" firstSheetName)) ;;
           do _ <- catchForbiddenError
                     (call (ValuesClear fileId
                              (template "undefined" firstSheetName)));
           ret tt
     | Some tabName =>
         logger (LogDebug ("Clearing sheet name " +:+ tabName)) ;;
         do _ <- catchForbiddenError (call (ValuesClear fileId tabName));
         ret tt
     end).

Definition clearTabName (fileId : string) (tabName : option string)
  : Async unit :=
  try_catch (clearTabName_try fileId tabName)
    (fun error => logger (LogError "Unable to clear the sheet" error)).





Section Sheets.
Context `{Common}.

(** [String(value)], as [Array.prototype.join] applies it to an element;
    [join] prints [undefined] and [null] elements as the empty string. *)
Fixpoint toString (value : Value) : string :=
  match value with
  | VUndefined => "undefined"
  | VNull => "null"
  | VBool b => if b then "true" else "false"
  | VNum n => number_toString n
  | VStr s => s
  | VArray elements =>
      join ","
        (List.map (fun element =>
                     match element with
                     | VUndefined | VNull => ""
                     | _ => toString element
                     end) elements)
  | VRegExp source flags => "/" +:+ source +:+ "/" +:+ flags
  | VSet _ => "[object Set]"
  | VDate time => date_toString time
  | VBoxedNumber n => number_toString n
  | VBoxedBoolean b => if b then "true" else "false"
  | VBoxedString s => s
  | VObject _ => "[object Object]"
  | VFunction source => source
  end.

(** [values.join(',')] *)
Definition join_values (elements : list Value) : string :=
  toString (VArray elements).

(** [isField(item) && item.type === DimensionType.DATE] *)
Definition dateTyped (item : option Item) : bool :=
  match item with
  | Some item => isField item && type_is_DATE item
  | None => false
  end.

(** The values caught by the first three tests of [formatCell]: arrays,
    regular expressions and sets. *)
Definition joinedOrSource (value : Value) : bool :=
  match value with
  | VArray _ | VRegExp _ _ | VSet _ => true
  | _ => false
  end.

Definition formatCell (value : Value) (item : option Item) : Value :=
  match value with
  | VArray elements => VStr (join_values elements)
  | VRegExp source _ => VStr source
  | VSet elements => VStr (join_values elements)
  | _ =>
      if dateTyped item then
        let timeInterval :=
          match item with
          | Some item => if isDimension item then timeInterval item else None
          | None => None
          end in
        VStr (formatDate value timeInterval)
      else
        match value with
        | VBoxedNumber n => VNum n
        | VBoxedBoolean b => VBool b
        | VBoxedString s => VStr s
        | VObject _ => VStr (JSON_stringify value)
        | _ => value
        end
  end.

Definition appendCsvToSheet
    (this : GoogleDriveClient) (refreshToken fileId : string)
    (results : list (list Value)) (tabName : option string)
  : Async unit :=
  if negb (isEnabled this) then
    throw (MissingConfigError "Google Drive is not enabled")
  else if bool_decide (List.length results = 0%nat) then
    logger (LogInfo "No data to write to the sheet")
  else
    do auth <- getCredentials this refreshToken;
    do sanitizedTabName <-
      (if truthy_string tabName then
         logger (LogInfo ("Creating new tab " +:+ template "undefined" tabName
                          +:+ " on Google sheets")) ;;
         do created <- createNewTab this refreshToken fileId
                         (template "undefined" tabName);
         ret (Some created)
       else ret None);
    clearTabName fileId tabName ;;
    logger (LogInfo
              ("Writing " +:+ number_toString (Z.of_nat (List.length results))
               +:+ " rows and "
               +:+ number_toString (Z.of_nat (List.length (default [] (head results))))
               +:+ " columns to Google sheets")) ;;
    do _ <- catchForbiddenError
              (call (ValuesUpdate fileId
                       (if truthy_string sanitizedTabName
                        then template "undefined" sanitizedTabName +:+ "!A1"
                        else "A1")
                       "RAW" results));
    ret tt.

(** [a.sort(compare)] with [compare] the difference of two keys: the sort
    is stable, so an element goes in front of the first one whose key is
    not smaller. *)
Fixpoint sort_insert (key : string -> Z) (x : string) (sorted : list string)
  : list string :=
  match sorted with
  | [] => [x]
  | y :: rest =>
      if key x - key y <=? 0 then x :: y :: rest
      else y :: sort_insert key x rest
  end.

Fixpoint sort_by (key : string -> Z) (xs : list string) : list string :=
  match xs with
  | [] => []
  | x :: rest => sort_insert key x (sort_by key rest)
  end.

(** A row of [csvContent]: its own properties in enumeration order. *)
Definition Row : Type := list (string * Value).

(** The own property [fieldId] of a row. *)
Fixpoint getOwn (row : Row) (fieldId : string) : option Value :=
  match row with
  | [] => None
  | (k, v) :: rest => if String.eqb k fieldId then Some v else getOwn rest fieldId
  end.

(** [row[fieldId]]: the own property, else the inherited member, else
    [undefined]. *)
Definition get (row : Row) (fieldId : string) : Value :=
  match getOwn row fieldId with
  | Some v => v
  | None => default VUndefined (inherited fieldId)
  end.

(** [customLabels[id]] *)
Definition customLabelsAt (customLabels : gmap string string) (id : string)
  : Value :=
  match customLabels !! id with
  | Some label => VStr label
  | None => default VUndefined (inherited id)
  end.

(** [itemMap[id]] *)
Definition itemMapAt (itemMap : gmap string Item) (id : string)
  : option Item :=
  match itemMap !! id with
  | Some item => Some item
  | None => inheritedItem <$> inherited id
  end.

Definition sortedFieldIds
    (firstRow : Row) (columnOrder hiddenFields : list string) : list string :=
  List.filter (fun id => negb (array_includes hiddenFields id))
    (sort_by (indexOf columnOrder) (List.map fst firstRow)).

(** The callback of [sortedFieldIds.map] that computes [csvHeader]. *)
Definition headerLabel
    (itemMap : gmap string Item) (showTableNames : bool)
    (customLabels : gmap string string) (id : string) : Value :=
  if truthy (customLabelsAt customLabels id) then
    customLabelsAt customLabels id
  else
    match itemMapAt itemMap id with
    | Some item =>
        VStr (if showTableNames then getItemLabel item
              else getItemLabelWithoutTableName item)
    | None => VStr id
    end.

Definition csvHeader
    (itemMap : gmap string Item) (showTableNames : bool)
    (customLabels : gmap string string) (sortedFieldIds : list string)
  : list Value :=
  List.map (headerLabel itemMap showTableNames customLabels) sortedFieldIds.

(** The grid that [appendToSheet] hands to [appendCsvToSheet]. *)
Definition sheetValues
    (csvContent : list Row) (itemMap : gmap string Item)
    (sortedFieldIds : list string) : list (list Value) :=
  List.map
    (fun row =>
       List.map
         (fun fieldId =>
            let item := itemMapAt itemMap fieldId in
            let value := get row fieldId in
            formatCell value item)
         sortedFieldIds)
    csvContent.

Definition appendToSheet
    (this : GoogleDriveClient) (refreshToken fileId : string)
    (csvContent : list Row) (itemMap : gmap string Item)
    (showTableNames : bool) (tabName : option string)
    (columnOrder : list string) (customLabels : gmap string string)
    (hiddenFields : list string)
  : Async unit :=
  if negb (isEnabled this) then
    throw (MissingConfigError "Google Drive is not enabled")
  else
    match csvContent with
    | [] => logger (LogInfo "No data to write to the sheet")
    | firstRow :: _ =>
        let sortedFieldIds := sortedFieldIds firstRow columnOrder hiddenFields in
        let csvHeader :=
          csvHeader itemMap showTableNames customLabels sortedFieldIds in
        let values := sheetValues csvContent itemMap sortedFieldIds in
        appendCsvToSheet this refreshToken fileId (csvHeader :: values) tabName
    end.

(** [timeOfLastSync] stands for [new Date().toLocaleString()]. *)
Definition uploadMetadata
    (this : GoogleDriveClient) (refreshToken fileId updateFrequency : string)
    (tabs : option (list string)) (reportUrl : option string)
    (timeOfLastSync : string)
  : Async unit :=
  if negb (isEnabled this) then
    throw (MissingConfigError "Google Drive is not enabled")
  else
    let metadataTabName := "metadata" in
    do auth <- getCredentials this refreshToken;
    do _ <- createNewTab this refreshToken fileId metadataTabName;
    clearTabName fileId (Some metadataTabName) ;;
    let tabsUpdated :=
      match tabs with
      | Some tabs =>
          imap (fun i t =>
                  [VStr (if bool_decide (i = 0%nat) then "Tabs updated" else "");
                   VStr t]) tabs
      | None => [[]]
      end in
    let metadata :=
      [[VStr "The data in this Google Sheet has been automatically synced via Lightdash"];
       [VStr "Update frequency:"; VStr updateFrequency];
       [VStr "Time of last sync:"; VStr timeOfLastSync]]
      ++ (if truthy_string reportUrl
          then [[VStr "Report URL:"; VStr (template "undefined" reportUrl)]]
          else [])
      ++ tabsUpdated in
    do _ <- catchForbiddenError
              (call (ValuesUpdate fileId (metadataTabName +:+ "!A1")
                       "USER_ENTERED" metadata));
    ret tt.


(** The values a sheet takes as they are: [undefined], [null], booleans,
    numbers, strings and dates. *)
Definition sheetSafe (value : Value) : bool :=
  match value with
  | VUndefined | VNull | VBool _ | VNum _ | VStr _ | VDate _ => true
  | _ => false
  end.

(** The objects other than dates: arrays, regular expressions, sets, boxed
    primitives and plain objects. *)
Definition objectButDate (value : Value) : bool :=
  match value with
  | VArray _ | VRegExp _ _ | VSet _ | VBoxedNumber _ | VBoxedBoolean _
  | VBoxedString _ | VObject _ => true
  | _ => false
  end.

(** [spreadsheet.data.sheets?.[0].properties?.title] when reading it does
    not throw, and [undefined] when it does. *)
Definition firstSheetTitle (spreadsheet : Spreadsheet) : option string :=
  chain (chain (chain (sheets spreadsheet) head) properties) title.

(** The [metadata] grid of [uploadMetadata]. *)
Definition metadataRows
    (updateFrequency : string) (tabs : option (list string))
    (reportUrl : option string) (timeOfLastSync : string)
  : list (list Value) :=
  [[VStr "The data in this Google Sheet has been automatically synced via Lightdash"];
   [VStr "Update frequency:"; VStr updateFrequency];
   [VStr "Time of last sync:"; VStr timeOfLastSync]]
  ++ (if truthy_string reportUrl
      then [[VStr "Report URL:"; VStr (template "undefined" reportUrl)]]
      else [])
  ++ match tabs with
     | Some tabs =>
         imap (fun i t =>
                 [VStr (if bool_decide (i = 0%nat) then "Tabs updated" else "");
                  VStr t]) tabs
     | None => [[]]
     end.

End Sheets.

End GoogleDrive.

(** ** The table component *)

Module SimpleTable.
Import Js.

(** What the component takes from the visualization context and from the
    chart configuration and hands to its children as it is. *)
Class Common := {
  Rows : Type;
  Columns : Type;
  ColumnOrder : Type;
  ItemsMap : Type;
  ConditionalFormattings : Type;
  MinMaxMap : Type;
  GetFieldLabel : Type;
  GetField : Type;
  PivotData : Type;
  FetchMoreRows : Type;
  OtherChartConfig : Type;
  (** [pivotTableData.data.rowsCount] *)
  rowsCount : PivotData -> Z;
}.

Section Component.
Context `{Common}.

Record PivotTableData := {
  pivot_loading : bool;
  pivot_data : option PivotData;
  pivot_error : option string;
}.

Record TableChartConfig := {
  rows : Rows;
  error : option string;
  columns : Columns;
  showColumnCalculation : option bool;
  conditionalFormattings : ConditionalFormattings;
  minMaxMap : MinMaxMap;
  hideRowNumbers : option bool;
  pivotTableData : PivotTableData;
  getFieldLabel : GetFieldLabel;
  getField : GetField;
  showResultsTotal : option bool;
  showSubtotals : option bool;
}.

(** A visualization configuration; [isTableVisualizationConfig] holds of
    the first kind only. *)
Inductive VisualizationConfig :=
| TableVisualization (chartConfig : TableChartConfig)
| OtherVisualization (chartConfig : OtherChartConfig).

Record ResultsData := {
  totalResults : option Z;
  isFetchingRows : option bool;
  fetchMoreRows : option FetchMoreRows;
}.

(** [useVisualizationContext()] *)
Record VisualizationContext := {
  isLoading : bool;
  columnOrder : ColumnOrder;
  itemsMap : ItemsMap;
  visualizationConfig : VisualizationConfig;
  resultsData : option ResultsData;
}.

Record SimpleTableProps := {
  isDashboard : bool;
  tileUuid : option string;
  className : option string;
  shouldExpand : option bool;
  minimal : option bool;
}.

(** The elements the component returns. *)
Inductive HeaderMenu :=
| DashboardHeaderContextMenu (tileUuid : string).

Inductive CellMenu :=
| MinimalCellContextMenu
| DashboardCellContextMenu (itemsMap : ItemsMap)
| CellContextMenu.

Record PivotTableElement := {
  pe_className : option string;
  pe_data : PivotData;
  pe_conditionalFormattings : ConditionalFormattings;
  pe_minMaxMap : MinMaxMap;
  pe_getFieldLabel : GetFieldLabel;
  pe_getField : GetField;
  pe_hideRowNumbers : option bool;
  pe_showSubtotals : option bool;
}.

Record TableElement := {
  te_minimal : bool;
  te_shouldExpand : option bool;
  te_className : option string;
  te_status : string;
  te_data : Rows;
  te_totalRowsCount : Z;
  te_isFetchingRows : bool;
  te_fetchMoreRows : option FetchMoreRows;
  te_columns : Columns;
  te_columnOrder : ColumnOrder;
  te_hideRowNumbers : option bool;
  te_showColumnCalculation : option bool;
  te_showSubtotals : option bool;
  te_conditionalFormattings : ConditionalFormattings;
  te_minMaxMap : MinMaxMap;
  te_footer_show : option bool;
  te_headerContextMenu : option HeaderMenu;
  te_cellContextMenu : CellMenu;
  te_pagination_showResultsTotal : option bool;
}.

Inductive Element :=
| Null
| LoadingChart
| SuboptimalState (title description : string)
| PivotBox (pb : string) (table : option PivotTableElement)
           (resultCount : option Z)
| TableBox (table : TableElement).

(** The [headerContextMenu] callback of the table. *)
Definition headerContextMenu
    (minimal isDashboard : bool) (tileUuid : option string)
  : option HeaderMenu :=
  if negb minimal && isDashboard && truthy_string tileUuid then
    Some (DashboardHeaderContextMenu (template "undefined" tileUuid))
  else None.

(** The [cellContextMenu] callback of the table. *)
Definition cellContextMenu
    (minimal isDashboard : bool) (tileUuid : option string)
    (itemsMap : ItemsMap) : CellMenu :=
  if minimal then MinimalCellContextMenu
  else if isDashboard && truthy_string tileUuid then
    DashboardCellContextMenu itemsMap
  else CellContextMenu.

(** The component.  [SimpleTableProps] names no property beyond the five
    that the component takes apart, so [rest] is empty. *)
Definition SimpleTable (props : SimpleTableProps) (ctx : VisualizationContext)
  : Element :=
  let minimal := default false (minimal props) in
  match visualizationConfig ctx with
  | OtherVisualization _ => Null
  | TableVisualization chartConfig =>
      if isLoading ctx then LoadingChart
      else if truthy_string (error chartConfig) then
        SuboptimalState "Results not available"
          (template "undefined" (error chartConfig))
      else if truthy_string (pivot_error (pivotTableData chartConfig)) then
        SuboptimalState "Results not available"
          (template "undefined" (pivot_error (pivotTableData chartConfig)))
      else if pivot_loading (pivotTableData chartConfig)
              || bool_decide (is_Some (pivot_data (pivotTableData chartConfig)))
      then
        PivotBox
          (if bool_decide (showResultsTotal chartConfig = Some true)
           then "xxl" else "xl")
          ((fun data =>
              {| pe_className := className props;
                 pe_data := data;
                 pe_conditionalFormattings := conditionalFormattings chartConfig;
                 pe_minMaxMap := minMaxMap chartConfig;
                 pe_getFieldLabel := getFieldLabel chartConfig;
                 pe_getField := getField chartConfig;
                 pe_hideRowNumbers := hideRowNumbers chartConfig;
                 pe_showSubtotals := showSubtotals chartConfig |})
           <$> pivot_data (pivotTableData chartConfig))
          (if bool_decide (showResultsTotal chartConfig = Some true)
           then rowsCount <$> pivot_data (pivotTableData chartConfig)
           else None)
      else
        TableBox
          {| te_minimal := minimal;
             te_shouldExpand := shouldExpand props;
             te_className := className props;
             te_status := "success";
             te_data := rows chartConfig;
             te_totalRowsCount :=
               match chain (resultsData ctx) totalResults with
               | Some n => if n =? 0 then 0 else n
               | None => 0
               end;
             te_isFetchingRows :=
               bool_decide (chain (resultsData ctx) isFetchingRows = Some true);
             te_fetchMoreRows := chain (resultsData ctx) fetchMoreRows;
             te_columns := columns chartConfig;
             te_columnOrder := columnOrder ctx;
             te_hideRowNumbers := hideRowNumbers chartConfig;
             te_showColumnCalculation := showColumnCalculation chartConfig;
             te_showSubtotals := showSubtotals chartConfig;
             te_conditionalFormattings := conditionalFormattings chartConfig;
             te_minMaxMap := minMaxMap chartConfig;
             te_footer_show := showColumnCalculation chartConfig;
             te_headerContextMenu :=
               headerContextMenu minimal (isDashboard props) (tileUuid props);
             te_cellContextMenu :=
               cellContextMenu minimal (isDashboard props) (tileUuid props)
                 (itemsMap ctx);
             te_pagination_showResultsTotal := showResultsTotal chartConfig |}
  end.

End Component.

End SimpleTable.

(** ** Concrete inputs *)

Module Examples.
Import Js.

(** *** For the hooks *)

Definition frontend : QueryResults.Common :=
  {| QueryResults.ResultRow := string;
     QueryResults.ItemsMap := list string;
     QueryResults.Filters := string;
     QueryResults.DashboardFilters := string;
     QueryResults.DateGranularity := string;
     QueryResults.DateDimension := string;
     QueryResults.MetricQueryRest := unit;
     QueryResults.ChartAndResultsRest := unit;
     QueryResults.ApiError := Z;
     QueryResults.QueryExecutionContext := string;
     QueryResults.EXPLORE := "exploreViewChart";
     QueryResults.convertDateFilters := fun f => f;
     QueryResults.convertDateDashboardFilters := fun f => f;
     QueryResults.dateDimension_truthy := fun _ => true |}.

#[local] Existing Instance frontend.
Import QueryResults.

Definition ordersQuery (metadata : option MetricQueryMetadata) : MetricQuery :=
  {| mq_filters := "status = completed";
     mq_timezone := Undefined;
     mq_metadata := metadata;
     mq_rest := tt |}.

Definition page1 : ApiPaginatedQueryResults :=
  {| pg_queryUuid := "query-1";
     pg_metricQuery := ordersQuery None;
     pg_rows := ["row-1"; "row-2"];
     pg_fields := ["orders_status"];
     pg_nextPage := Some 2 |}.

Definition page2 : ApiPaginatedQueryResults :=
  {| pg_queryUuid := "query-1";
     pg_metricQuery := ordersQuery None;
     pg_rows := ["row-3"];
     pg_fields := [];
     pg_nextPage := None |}.

(** A backend that serves [page1], then [page2] when asked for page 2, and
    answers 404 to everything else. *)
Definition twoPageServer : Server :=
  fun k _ req =>
    match k return ApiError + payload k with
    | KPaginatedQueryResults =>
        match body req with
        | BodyPaginatedQuery _ => inr page1
        | BodyNextPage _ (Some 2) => inr page2
        | _ => inl 404
        end
    | _ => inl 404
    end.

(** A backend that answers 500 to every request. *)
Definition failingServer : Server := fun _ _ _ => inl 500.

Definition paginatedRequest : PaginatedMetricQueryRequestParams :=
  {| pp_context := EXPLORE;
     pp_query := {| pq_query := ordersQuery None;
                    pq_exploreName := "orders";
                    pq_granularity := None |} |}.

Definition emptyProps : QueryResultsProps :=
  {| projectUuid := "project-1";
     tableId := "orders";
     query := None;
     csvLimit := Undefined;
     chartUuid := None;
     chartVersionUuid := None;
     dateZoomGranularity := None;
     context := None |}.

Definition chartProps : QueryResultsProps :=
  {| projectUuid := "project-1";
     tableId := "orders";
     query := None;
     csvLimit := Undefined;
     chartUuid := Some "chart-1";
     chartVersionUuid := None;
     dateZoomGranularity := None;
     context := None |}.

(** A query cache in which every saved-chart entry holds a response whose
    metadata carries [dateDimension]. *)
Definition cacheWith (dateDimension : option string) : QueryClient :=
  fun _ =>
    Some {| car_metricQuery :=
              Some (ordersQuery
                      (Some {| hasADateDimension := dateDimension |}));
            car_rest := tt |}.

(** A backend that serves [page1] and answers 500 to the request for the
    page after it. *)
Definition secondPageFails : Server :=
  fun k _ req =>
    match k return ApiError + payload k with
    | KPaginatedQueryResults =>
        match body req with
        | BodyPaginatedQuery _ => inr page1
        | _ => inl 500
        end
    | _ => inl 500
    end.

(** A backend that answers every paginated request with [page1], which
    names a next page. *)
Definition endlessServer : Server :=
  fun k _ _ =>
    match k return ApiError + payload k with
    | KPaginatedQueryResults => inr page1
    | _ => inl 404
    end.

Definition adhocProps : QueryResultsProps :=
  {| projectUuid := "project-1";
     tableId := "orders";
     query := Some (ordersQuery None);
     csvLimit := Undefined;
     chartUuid := None;
     chartVersionUuid := Some "version-7";
     dateZoomGranularity := None;
     context := None |}.

End Examples.

(** ** Concrete inputs for the export client *)

Module DriveExamples.
Import Js GoogleDrive.

Record DemoItem := {
  demo_isField : bool;
  demo_isDimension : bool;
  demo_type : string;
  demo_timeInterval : option string;
  demo_label : string;
  demo_tableLabel : string;
}.

Definition backend : Common :=
  {| Item := DemoItem;
     TimeFrames := string;
     isField := demo_isField;
     isDimension := demo_isDimension;
     type_is_DATE := fun item => String.eqb (demo_type item) "date";
     timeInterval := demo_timeInterval;
     formatDate := fun value interval =>
                     match value with
                     | VStr s => s
                     | _ => "Invalid date"
                     end +:+ " by " +:+ default "DAY" interval;
     getItemLabel := fun item => demo_tableLabel item +:+ " " +:+ demo_label item;
     getItemLabelWithoutTableName := demo_label;
     JSON_stringify := fun value =>
                         match value with
                         | VObject [] => "{}"
                         | _ => "{ }"
                         end;
     number_toString := fun n => if n =? 5 then "5" else "0";
     date_toString := fun _ => "Thu Jan 01 1970";
     inheritedItem := fun member =>
                        {| demo_isField := false;
                           demo_isDimension := false;
                           demo_type := "";
                           demo_timeInterval := None;
                           demo_label := "undefined";
                           demo_tableLabel := "undefined" |} |}.

Definition createdMonth : DemoItem :=
  {| demo_isField := true;
     demo_isDimension := true;
     demo_type := "date";
     demo_timeInterval := Some "MONTH";
     demo_label := "Created month";
     demo_tableLabel := "Orders" |}.

Definition status : DemoItem :=
  {| demo_isField := true;
     demo_isDimension := true;
     demo_type := "string";
     demo_timeInterval := None;
     demo_label := "Status";
     demo_tableLabel := "Orders" |}.

Definition enabledClient : GoogleDriveClient :=
  constructor {| oauth2ClientId := Some "client-id";
                 oauth2ClientSecret := Some "client-secret" |}.

Definition emptySpreadsheet : Spreadsheet :=
  {| spreadsheetId := Some "file-1"; sheets := None |}.

Definition httpError (httpStatus : Z) (text : string) : ProviderError :=
  {| code := Some httpStatus;
     errors := Some [ {| message := Some text |} ];
     response := Some {| GoogleDrive.status := Some httpStatus;
                         data := Some {| error := None;
                                         error_description := None |} |};
     rendering := "Error: " +:+ text |}.

(** Credentials load; every call to the service is answered 401. *)
Definition expiredToken : Provider :=
  fun _ c =>
    match c with
    | AuthFromJSON _ _ _ => Replies emptySpreadsheet
    | _ => Throws (httpError 401 "Request had invalid authentication credentials")
    end.

(** Reading and clearing the sheet is answered 401, the rest succeeds. *)
Definition clearDenied : Provider :=
  fun _ c =>
    match c with
    | SpreadsheetsGet _ | ValuesClear _ _ =>
        Throws (httpError 401 "Request had invalid authentication credentials")
    | _ => Replies emptySpreadsheet
    end.

(** Adding a tab is answered with [batchUpdateError], the rest succeeds. *)
Definition tabCreationFails (batchUpdateError : ProviderError) : Provider :=
  fun _ c =>
    match c with
    | SpreadsheetsBatchUpdateAddSheet _ _ => Throws batchUpdateError
    | _ => Replies emptySpreadsheet
    end.



Definition alreadyExists : ProviderError :=
  httpError 400
    "Invalid requests[0].addSheet: A sheet with the name 'orders' already exists.".

Definition newWorld : World := {| calls := []; log := [] |}.

Definition noSecretConfig : GoogleAuthConfig :=
  {| oauth2ClientId := Some "client-id"; oauth2ClientSecret := None |}.

(** The answer to a refresh token that has been revoked. *)
Definition invalidGrant : ProviderError :=
  {| code := Some 400;
     errors := None;
     response := Some {| GoogleDrive.status := Some 400;
                         data := Some {| error := Some "invalid_grant";
                                         error_description :=
                                           Some "Token has been expired or revoked." |} |};
     rendering := "Error: invalid_grant" |}.

(** A code-400 error that carries no [errors] array. *)
Definition bare400 : ProviderError :=
  {| code := Some 400;
     errors := None;
     response := Some {| GoogleDrive.status := Some 400; data := None |};
     rendering := "Error: Bad Request" |}.

(** Every call succeeds; the spreadsheet has one sheet, [Sheet1]. *)
Definition sheetOne : Spreadsheet :=
  {| spreadsheetId := Some "file-1";
     sheets := Some [ {| properties := Some {| title := Some "Sheet1" |} |} ] |}.

Definition allSucceed : Provider := fun _ _ => Replies sheetOne.

(** Every call succeeds; the spreadsheet lists no sheet. *)
Definition noSheets : Provider := fun _ _ => Replies emptySpreadsheet.

(** Credentials load; every call to the service throws [e]. *)
Definition serviceThrows (e : ProviderError) : Provider :=
  fun _ c =>
    match c with
    | AuthFromJSON _ _ _ => Replies emptySpreadsheet
    | _ => Throws e
    end.

End DriveExamples.

(** ** Concrete inputs for the table component *)

Module TableExamples.
Import Js SimpleTable.

Definition frontend : Common :=
  {| Rows := list string;
     Columns := list string;
     ColumnOrder := list string;
     ItemsMap := list string;
     ConditionalFormattings := unit;
     MinMaxMap := unit;
     GetFieldLabel := unit;
     GetField := unit;
     PivotData := list string;
     FetchMoreRows := unit;
     OtherChartConfig := string;
     rowsCount := fun data => Z.of_nat (List.length data) |}.

#[local] Existing Instance frontend.

Definition tableConfig (error : option string) (pivot : PivotTableData)
  : TableChartConfig :=
  {| rows := ["row-1"];
     SimpleTable.error := error;
     columns := ["orders_status"];
     showColumnCalculation := None;
     conditionalFormattings := tt;
     minMaxMap := tt;
     hideRowNumbers := None;
     pivotTableData := pivot;
     getFieldLabel := tt;
     getField := tt;
     showResultsTotal := Some true;
     showSubtotals := None |}.

Definition noPivot : PivotTableData :=
  {| pivot_loading := false; pivot_data := None; pivot_error := None |}.

(** Pivot data that has arrived while the pivot is still marked loading. *)
Definition loadedPivot : PivotTableData :=
  {| pivot_loading := true;
     pivot_data := Some ["pivot-row"];
     pivot_error := None |}.

Definition context (loading : bool) (config : VisualizationConfig)
  : VisualizationContext :=
  {| isLoading := loading;
     columnOrder := ["orders_status"];
     itemsMap := ["orders_status"];
     visualizationConfig := config;
     resultsData := None |}.

Definition tileProps (minimal : option bool) : SimpleTableProps :=
  {| isDashboard := true;
     tileUuid := Some "tile-1";
     className := None;
     shouldExpand := None;
     SimpleTable.minimal := minimal |}.

End TableExamples.

(** ** Properties of the query-results hooks *)

Module QueryResultsFacts.
Import Js QueryResults.

Section Facts.
Context `{Common}.

Lemma getQueryPaginatedResults_loop_collects
    (srv : Server) (projectUuid : string) (firstPage : ApiPaginatedQueryResults)
    (rest : list ApiPaginatedQueryResults) :
  forall (fuel : nat) (sent : list ApiRequest)
         (currentPage : ApiPaginatedQueryResults) (allRows : list ResultRow),
    servesPages srv projectUuid firstPage sent currentPage rest ->
    (List.length rest <= fuel)%nat ->
    getQueryPaginatedResults_loop fuel projectUuid firstPage currentPage
      allRows srv sent
    = (Resolved (allRows ++ List.concat (List.map pg_rows rest)),
       sent ++ List.map (nextPageRequest projectUuid firstPage)
                 (removelast (currentPage :: rest))).
Proof.
  induction rest as [|nextPage rest IH]; intros fuel sent currentPage allRows.
  - intros Hlast _. simpl in Hlast.
    destruct fuel; simpl; rewrite Hlast; unfold resolve;
      by rewrite !app_nil_r.
  - intros (Hmore & Hserved & Hrest) Hfuel.
    destruct fuel as [|fuel]; [simpl in Hfuel; lia|].
    cbn [getQueryPaginatedResults_loop]. rewrite Hmore.
    unfold await at 1, lightdashApi. rewrite Hserved.
    rewrite (IH fuel _ nextPage _ Hrest) by (simpl in Hfuel; lia).
    change (removelast (currentPage :: nextPage :: rest))
      with (currentPage :: removelast (nextPage :: rest)).
    cbn [List.map List.concat]. by rewrite <- !app_assoc.
Qed.

(** C1. When the backend answers the first request with [firstPage] and the
    requests of the loop with the pages [rest], the last of which names no
    next page, [getQueryPaginatedResults] resolves (given fuel for one
    iteration per further page): its rows are the rows of the pages
    concatenated in page order, its field map, metric query and query
    identifier are those of the first page, [cacheHit] is false, and the
    requests were sent one after the other in page order. *)
Theorem getQueryPaginatedResults_concatenates_pages
    (srv : Server) (projectUuid : string)
    (data : PaginatedMetricQueryRequestParams) (sent : list ApiRequest)
    (firstPage : ApiPaginatedQueryResults)
    (rest : list ApiPaginatedQueryResults) (fuel : nat) :
  srv KPaginatedQueryResults sent (firstPageRequest projectUuid data)
  = inr firstPage ->
  servesPages srv projectUuid firstPage
    (sent ++ [firstPageRequest projectUuid data]) firstPage rest ->
  (List.length rest <= fuel)%nat ->
  getQueryPaginatedResults fuel projectUuid data srv sent
  = (Resolved
       {| qr_queryUuid := Some (pg_queryUuid firstPage);
          qr_metricQuery := pg_metricQuery firstPage;
          qr_cacheMetadata := {| cacheHit := false |};
          qr_rows := List.concat (List.map pg_rows (firstPage :: rest));
          qr_fields := pg_fields firstPage |},
     sent ++ firstPageRequest projectUuid data
          :: List.map (nextPageRequest projectUuid firstPage)
               (removelast (firstPage :: rest))).
Proof.
  intros Hfirst Hrest Hfuel.
  unfold getQueryPaginatedResults, await at 1, lightdashApi.
  rewrite Hfirst. unfold await.
  rewrite (getQueryPaginatedResults_loop_collects _ _ _ _ _ _ _ _ Hrest Hfuel).
  unfold resolve. cbn [List.map List.concat]. by rewrite <- app_assoc.
Qed.

(** C2. The query function of [useQueryResults] takes exactly one of four
    paths, decided in this order: a chart identifier and a version
    identifier give the versioned chart results; a chart identifier alone
    gives the chart results; otherwise a metric query gives the paginated
    execution when the feature flag is on and the single-shot execution when
    it is off; and a request with neither a chart identifier nor a metric
    query is rejected with a [ParameterError] without any request being
    sent. *)
Theorem useQueryResults_dispatch
    (fuel : nat) (queryPaginationEnabled : bool)
    (data : option QueryResultsProps) :
  let run := queryFn (useQueryResults fuel queryPaginationEnabled data) in
  let chart := truthy_string (chain data chartUuid) in
  let version := truthy_string (chain data chartVersionUuid) in
  (chart = true -> version = true ->
   run = getChartVersionResults
           (template "undefined" (chain data chartUuid))
           (template "undefined" (chain data chartVersionUuid)))
  /\ (chart = true -> version = false ->
      run = getChartResults (chain data chartUuid) (chain data context))
  /\ (chart = false ->
      forall d q, data = Some d -> query d = Some q ->
      run = if queryPaginationEnabled
            then getQueryPaginatedResults fuel (projectUuid d)
                   (queryWithOverrides d q)
            else getQueryResults d)
  /\ (chart = false -> chain data query = None ->
      forall (srv : Server) (sent : list ApiRequest),
      run srv sent
      = (Rejected (ParameterError "Missing QueryResultsProps"), sent)).
Proof.
  cbn zeta. unfold useQueryResults, useQueryResults_queryFn. cbn [queryFn].
  repeat split.
  - by intros -> ->.
  - by intros -> ->.
  - intros -> d q -> Hq. cbn [andb chain]. by rewrite Hq.
  - intros -> Hnone srv sent. cbn [andb].
    destruct data as [d|]; [|done].
    cbn [chain] in Hnone. by rewrite Hnone.
Qed.

(** The date-zoom set after a render in which the cached response has no
    date dimension is the set before it. *)
Lemma useChartAndResults_set_unchanged_without_date_dimension
    (queryClient : QueryClient) (chartUuid dashboardUuid : option string)
    (dashboardFilters : DashboardFilters) (dashboardSorts : list SortField)
    (invalidateCache : option bool) (granularity : option DateGranularity)
    (autoRefresh : option bool) (context : option string)
    (prev : ChartsWithDateZoomApplied) :
  cachedHasADateDimension
    (queryClient (savedChartResultsKey chartUuid dashboardUuid dashboardFilters
                    invalidateCache dashboardSorts autoRefresh)) = false ->
  fst (useChartAndResults queryClient chartUuid dashboardUuid dashboardFilters
         dashboardSorts invalidateCache granularity autoRefresh context prev)
  = prev.
Proof.
  intros Hdate. unfold useChartAndResults. cbn [fst]. by rewrite Hdate.
Qed.

(** C3, as the code has it.  The render of [useChartAndResults] empties the
    date-zoom set, whatever it held, when the cached response has a date
    dimension and no granularity is given (a set that is [undefined] stays
    [undefined]); when the cached response has no date dimension, the set
    is left as it was. *)
Theorem useChartAndResults_clears_set_without_granularity
    (queryClient : QueryClient) (chartUuid dashboardUuid : option string)
    (dashboardFilters : DashboardFilters) (dashboardSorts : list SortField)
    (invalidateCache : option bool) (granularity : option DateGranularity)
    (autoRefresh : option bool) (context : option string)
    (prev : ChartsWithDateZoomApplied) :
  let hasADateDimension :=
    cachedHasADateDimension
      (queryClient (savedChartResultsKey chartUuid dashboardUuid
                      dashboardFilters invalidateCache dashboardSorts
                      autoRefresh)) in
  let after :=
    fst (useChartAndResults queryClient chartUuid dashboardUuid
           dashboardFilters dashboardSorts invalidateCache granularity
           autoRefresh context prev) in
  (hasADateDimension = true -> granularity = None ->
   after = match prev with
           | Some _ => Some ∅
           | None => None
           end)
  /\ (hasADateDimension = false -> after = prev).
Proof.
  cbn zeta. split.
  - intros Hdate ->. unfold useChartAndResults. cbn [fst]. rewrite Hdate.
    by destruct prev.
  - apply useChartAndResults_set_unchanged_without_date_dimension.
Qed.

(** C4. With a date dimension in the cached response and a granularity,
    the chart identifier is in the date-zoom set after the render and the
    cache key is the memoised key followed by the granularity.  Without a
    granularity, or without a date dimension, the cache key is the memoised
    key alone, so that without a date dimension any two granularities give
    the same key. *)
Theorem useChartAndResults_granularity_in_key
    (queryClient : QueryClient) (chartUuid dashboardUuid : option string)
    (dashboardFilters : DashboardFilters) (dashboardSorts : list SortField)
    (invalidateCache : option bool) (granularity : option DateGranularity)
    (autoRefresh : option bool) (context : option string)
    (prev : ChartsWithDateZoomApplied) :
  let key :=
    savedChartResultsKey chartUuid dashboardUuid dashboardFilters
      invalidateCache dashboardSorts autoRefresh in
  let hasADateDimension := cachedHasADateDimension (queryClient key) in
  let render g :=
    useChartAndResults queryClient chartUuid dashboardUuid dashboardFilters
      dashboardSorts invalidateCache g autoRefresh context prev in
  (forall g, hasADateDimension = true -> granularity = Some g ->
     (exists charts : gset (option string),
        fst (render granularity) = Some charts /\ chartUuid ∈ charts)
     /\ queryKey (snd (render granularity)) = key ++ [KGranularity g])
  /\ (granularity = None -> queryKey (snd (render granularity)) = key)
  /\ (hasADateDimension = false ->
      queryKey (snd (render granularity)) = key
      /\ forall g', queryKey (snd (render g'))
                    = queryKey (snd (render granularity))).
Proof.
  cbn zeta. unfold useChartAndResults. cbn [fst snd queryKey].
  split; [|split].
  - intros g Hdate ->. rewrite Hdate. split; [|done].
    exists (default ∅ prev ∪ {[ chartUuid ]}). split; [done | set_solver].
  - by intros ->.
  - intros Hdate. rewrite Hdate. split; [by destruct granularity|].
    intros g'. by destruct g', granularity.
Qed.

(** The error of a failed query reaches [setErrorResponse]. *)
Lemma useQueryResults_onError_reports (e : Failure) :
  useQueryResults_onError (Some e) = [e].
Proof. reflexivity. Qed.

(** *** More on the paginated execution *)

Lemma getQueryPaginatedResults_loop_fails
    (srv : Server) (projectUuid : string) (firstPage : ApiPaginatedQueryResults)
    (err : ApiError) (rest : list ApiPaginatedQueryResults) :
  forall (fuel : nat) (sent : list ApiRequest)
         (currentPage : ApiPaginatedQueryResults) (allRows : list ResultRow),
    servesPagesThenFails srv projectUuid firstPage sent currentPage rest err ->
    (List.length rest < fuel)%nat ->
    getQueryPaginatedResults_loop fuel projectUuid firstPage currentPage
      allRows srv sent
    = (Rejected (ApiFailure err),
       sent ++ List.map (nextPageRequest projectUuid firstPage)
                 (currentPage :: rest)).
Proof.
  induction rest as [|nextPage rest IH]; intros fuel sent currentPage allRows.
  - intros (Hmore & Hfails) Hfuel.
    destruct fuel as [|fuel]; [simpl in Hfuel; lia|].
    cbn [getQueryPaginatedResults_loop]. rewrite Hmore.
    unfold await, lightdashApi. by rewrite Hfails.
  - intros (Hmore & Hserved & Hrest) Hfuel.
    destruct fuel as [|fuel]; [simpl in Hfuel; lia|].
    cbn [getQueryPaginatedResults_loop]. rewrite Hmore.
    unfold await at 1, lightdashApi. rewrite Hserved.
    rewrite (IH fuel _ nextPage _ Hrest) by (simpl in Hfuel; lia).
    cbn [List.map]. by rewrite <- app_assoc.
Qed.

(** X1. A failure of any page fails the whole aggregation: when the first
    request is answered with an error, or when the backend serves some
    pages and then answers the next request with an error,
    [getQueryPaginatedResults] rejects with that error, hands out none of
    the rows fetched so far, and sends no request after the failed one. *)
Theorem getQueryPaginatedResults_rejects_on_failed_page
    (srv : Server) (projectUuid : string)
    (data : PaginatedMetricQueryRequestParams) (sent : list ApiRequest)
    (err : ApiError) (fuel : nat) :
  (srv KPaginatedQueryResults sent (firstPageRequest projectUuid data)
   = inl err ->
   getQueryPaginatedResults fuel projectUuid data srv sent
   = (Rejected (ApiFailure err), sent ++ [firstPageRequest projectUuid data]))
  /\ (forall firstPage rest,
        srv KPaginatedQueryResults sent (firstPageRequest projectUuid data)
        = inr firstPage ->
        servesPagesThenFails srv projectUuid firstPage
          (sent ++ [firstPageRequest projectUuid data]) firstPage rest err ->
        (List.length rest < fuel)%nat ->
        getQueryPaginatedResults fuel projectUuid data srv sent
        = (Rejected (ApiFailure err),
           sent ++ firstPageRequest projectUuid data
                :: List.map (nextPageRequest projectUuid firstPage)
                     (firstPage :: rest))).
Proof.
  split.
  - intros Hfirst. unfold getQueryPaginatedResults, await, lightdashApi.
    by rewrite Hfirst.
  - intros firstPage rest Hfirst Hrest Hfuel.
    unfold getQueryPaginatedResults, await at 1, lightdashApi.
    rewrite Hfirst. unfold await.
    rewrite (getQueryPaginatedResults_loop_fails _ _ _ _ _ _ _ _ _ Hrest Hfuel).
    by rewrite <- app_assoc.
Qed.

Lemma getQueryPaginatedResults_loop_unbounded
    (srv : Server) (projectUuid : string)
    (firstPage : ApiPaginatedQueryResults) :
  alwaysNamesNextPage srv ->
  forall (fuel : nat) (sent : list ApiRequest)
         (currentPage : ApiPaginatedQueryResults) (allRows : list ResultRow),
    truthy_number (pg_nextPage currentPage) = true ->
    fst (getQueryPaginatedResults_loop fuel projectUuid firstPage currentPage
           allRows srv sent) = Unfinished
    /\ List.length
         (snd (getQueryPaginatedResults_loop fuel projectUuid firstPage
                 currentPage allRows srv sent))
       = (List.length sent + fuel)%nat.
Proof.
  intros Hsrv. induction fuel as [|fuel IH];
    intros sent currentPage allRows Hmore;
    cbn [getQueryPaginatedResults_loop]; rewrite Hmore.
  - split; [done|]. cbn [unfinished snd]. lia.
  - destruct (Hsrv sent (nextPageRequest projectUuid firstPage currentPage))
      as (page & Hpage & Hnext).
    unfold await, lightdashApi. rewrite Hpage.
    destruct (IH (sent ++ [nextPageRequest projectUuid firstPage currentPage])
                page (allRows ++ pg_rows page) Hnext) as (Hfst & Hlen).
    split; [exact Hfst|]. rewrite Hlen, length_app. cbn [List.length]. lia.
Qed.

(** X2. The loop has no bound of its own: against a backend that names a
    next page in every answer, [getQueryPaginatedResults] is still fetching
    after any number of iterations, one more request sent per iteration,
    and never resolves or rejects. *)
Theorem getQueryPaginatedResults_unbounded
    (srv : Server) (projectUuid : string)
    (data : PaginatedMetricQueryRequestParams) (sent : list ApiRequest) :
  alwaysNamesNextPage srv ->
  forall fuel : nat,
    fst (getQueryPaginatedResults fuel projectUuid data srv sent) = Unfinished
    /\ List.length (snd (getQueryPaginatedResults fuel projectUuid data srv sent))
       = (List.length sent + 1 + fuel)%nat.
Proof.
  intros Hsrv fuel.
  destruct (Hsrv sent (firstPageRequest projectUuid data))
    as (firstPage & Hfirst & Hnext).
  destruct (getQueryPaginatedResults_loop_unbounded srv projectUuid firstPage
              Hsrv fuel (sent ++ [firstPageRequest projectUuid data])
              firstPage (pg_rows firstPage) Hnext) as (Hfst & Hlen).
  destruct (getQueryPaginatedResults_loop fuel projectUuid firstPage firstPage
              (pg_rows firstPage) srv
              (sent ++ [firstPageRequest projectUuid data]))
    as [outcome sent'] eqn:Hloop.
  cbn [fst snd] in Hfst, Hlen. subst outcome.
  assert (Hrun : getQueryPaginatedResults fuel projectUuid data srv sent
                 = (Unfinished, sent')).
  { unfold getQueryPaginatedResults, await, lightdashApi.
    by rewrite Hfirst, Hloop. }
  rewrite Hrun. split; [done|]. cbn [snd].
  rewrite Hlen, length_app. cbn [List.length]. lia.
Qed.

(** X3. The hook end to end on the paginated path: for a request without a
    chart identifier and with a metric query, when the feature flag is on,
    the query function of [useQueryResults] first posts, to version [v2]
    of [/projects/<projectUuid>/query], the context [EXPLORE] and the
    metric query with its filters passed through [convertDateFilters], a
    [null] time zone turned into [undefined], the table identifier as
    explore name and the date zoom as granularity, everything else in the
    query as it was; it then asks for each further page by the query
    identifier of the first page, and resolves with the rows of all pages
    in page order and the metadata of the first page. *)
Theorem useQueryResults_paginated_end_to_end
    (srv : Server) (d : QueryResultsProps) (q : MetricQuery)
    (sent : list ApiRequest) (firstPage : ApiPaginatedQueryResults)
    (rest : list ApiPaginatedQueryResults) (fuel : nat) :
  let request :=
    {| url := "/projects/" +:+ projectUuid d +:+ "/query";
       version := Some "v2";
       method := "POST";
       body :=
         BodyPaginatedQuery
           {| pp_context := EXPLORE;
              pp_query :=
                {| pq_query :=
                     {| mq_filters := convertDateFilters (mq_filters q);
                        mq_timezone :=
                          match mq_timezone q with
                          | Val timezone => Val timezone
                          | _ => Undefined
                          end;
                        mq_metadata := mq_metadata q;
                        mq_rest := mq_rest q |};
                   pq_exploreName := tableId d;
                   pq_granularity := dateZoomGranularity d |} |} |} in
  let followUp (page : ApiPaginatedQueryResults) :=
    {| url := "/projects/" +:+ projectUuid d +:+ "/query";
       version := Some "v2";
       method := "POST";
       body := BodyNextPage (pg_queryUuid firstPage) (pg_nextPage page) |} in
  truthy_string (chartUuid d) = false ->
  query d = Some q ->
  srv KPaginatedQueryResults sent request = inr firstPage ->
  servesPages srv (projectUuid d) firstPage (sent ++ [request]) firstPage
    rest ->
  (List.length rest <= fuel)%nat ->
  queryFn (useQueryResults fuel true (Some d)) srv sent
  = (Resolved
       {| qr_queryUuid := Some (pg_queryUuid firstPage);
          qr_metricQuery := pg_metricQuery firstPage;
          qr_cacheMetadata := {| cacheHit := false |};
          qr_rows := List.concat (List.map pg_rows (firstPage :: rest));
          qr_fields := pg_fields firstPage |},
     sent ++ request
          :: List.map followUp (removelast (firstPage :: rest))).
Proof.
  cbn zeta. intros Hchart Hquery Hfirst Hrest Hfuel.
  assert (Hrequest :
            firstPageRequest (projectUuid d) (queryWithOverrides d q)
            = {| url := "/projects/" +:+ projectUuid d +:+ "/query";
                 version := Some "v2";
                 method := "POST";
                 body :=
                   BodyPaginatedQuery
                     {| pp_context := EXPLORE;
                        pp_query :=
                          {| pq_query :=
                               {| mq_filters :=
                                    convertDateFilters (mq_filters q);
                                  mq_timezone :=
                                    match mq_timezone q with
                                    | Val timezone => Val timezone
                                    | _ => Undefined
                                    end;
                                  mq_metadata := mq_metadata q;
                                  mq_rest := mq_rest q |};
                             pq_exploreName := tableId d;
                             pq_granularity := dateZoomGranularity d |} |} |}).
  { unfold firstPageRequest, queryWithOverrides, nullish_to_undefined.
    by destruct (mq_timezone q). }
  rewrite <- Hrequest in Hfirst, Hrest |- *.
  unfold useQueryResults, useQueryResults_queryFn. cbn [queryFn chain].
  rewrite Hchart, Hquery. cbn [andb].
  unfold getQueryPaginatedResults, await at 1, lightdashApi.
  rewrite Hfirst. unfold await.
  rewrite (getQueryPaginatedResults_loop_collects _ _ _ _ _ _ _ _ Hrest Hfuel).
  unfold resolve. cbn [List.map List.concat]. by rewrite <- app_assoc.
Qed.


(** X5. Rendering [useChartAndResults] again with the same arguments and
    the same cache leaves the date-zoom set as the first render left it;
    and with a date dimension and a granularity the set only grows: it is
    the former set (the empty set when it was [undefined]) with the chart
    added. *)
Theorem useChartAndResults_set_idempotent
    (queryClient : QueryClient) (chartUuid dashboardUuid : option string)
    (dashboardFilters : DashboardFilters) (dashboardSorts : list SortField)
    (invalidateCache : option bool) (granularity : option DateGranularity)
    (autoRefresh : option bool) (context : option string)
    (prev : ChartsWithDateZoomApplied) :
  let render before :=
    fst (useChartAndResults queryClient chartUuid dashboardUuid
           dashboardFilters dashboardSorts invalidateCache granularity
           autoRefresh context before) in
  render (render prev) = render prev
  /\ (cachedHasADateDimension
        (queryClient (savedChartResultsKey chartUuid dashboardUuid
                        dashboardFilters invalidateCache dashboardSorts
                        autoRefresh)) = true ->
      is_Some granularity ->
      render prev = Some (default ∅ prev ∪ {[ chartUuid ]})
      /\ forall charts other,
           prev = Some charts -> other ∈ charts ->
           exists after, render prev = Some after /\ other ∈ after).
Proof.
  cbn zeta. unfold useChartAndResults. cbn [fst].
  unfold setChartsWithDateZoomApplied_updater.
  destruct (cachedHasADateDimension _); split; try done.
  - destruct granularity as [g|]; [|by destruct prev].
    cbn [default from_option id]. f_equal.
    apply set_eq. intros x. rewrite !elem_of_union. tauto.
  - intros _ [g ->]. split; [done|].
    intros charts other -> Hother. eexists. split; [done|].
    cbn [default from_option id]. by apply elem_of_union_l.
Qed.

(** *** Failures *)

Lemma lightdashApi_sends_one
    (k : ResponseKind) (req : ApiRequest) (srv : Server)
    (sent : list ApiRequest) :
  snd (lightdashApi k req srv sent) = sent ++ [req].
Proof. unfold lightdashApi. by destruct (srv k sent req). Qed.

Ltac sends_one Hfails :=
  cbv [useUnderlyingDataResults useChartAndResults getUnderlyingDataResults
       getChartAndResults getChartResults getChartVersionResults
       getQueryResults queryFn snd lightdashApi] in Hfails;
  match type of Hfails with
  | context [match ?answer with _ => _ end] => destruct answer
  end;
  injection Hfails as _ <-; eexists; reflexivity.

Lemma useQuery_fetch_rejected {A} (options : UseQueryOptions A)
    (srv : Server) (sent sent' : list ApiRequest) (e : Failure) :
  retry options = None \/ retry options = Some (RetryFlag false) ->
  queryFn options srv sent = (Rejected e, sent') ->
  useQuery_fetch options srv sent
  = Some ({| data := None; error := Some e |}, sent').
Proof.
  unfold useQuery_fetch. by intros [-> | ->] ->.
Qed.

(** C7, with [useQuery] as the spec describes it.  [useChartAndResults]
    and [useUnderlyingDataResults] pass [retry: false]; [useQueryResults]
    passes no [retry] option and leaves the matter to the query client.
    When the fetch of one of the three hooks fails, the query function has
    been called once: the requests sent are those of that one call, a
    single request for [useUnderlyingDataResults] and
    [useChartAndResults], and at most one for [useQueryResults] off the
    paginated path.  The error is the [error] of the result, and the
    effect of [useQueryResults] hands it to [setErrorResponse]. *)
Theorem failed_fetch_is_not_retried
    (srv : Server) (sent : list ApiRequest) (e : Failure)
    (sent' : list ApiRequest) :
  (forall projectUuid tableId query,
     let options := useUnderlyingDataResults projectUuid tableId query in
     retry options = Some (RetryFlag false)
     /\ (queryFn options srv sent = (Rejected e, sent') ->
         useQuery_fetch options srv sent
         = Some ({| data := None; error := Some e |}, sent')
         /\ exists request, sent' = sent ++ [request]))
  /\ (forall queryClient chartUuid dashboardUuid dashboardFilters
             dashboardSorts invalidateCache granularity autoRefresh context
             chartsWithDateZoomApplied,
        let options :=
          snd (useChartAndResults queryClient chartUuid dashboardUuid
                 dashboardFilters dashboardSorts invalidateCache granularity
                 autoRefresh context chartsWithDateZoomApplied) in
        retry options = Some (RetryFlag false)
        /\ (queryFn options srv sent = (Rejected e, sent') ->
            useQuery_fetch options srv sent
            = Some ({| data := None; error := Some e |}, sent')
            /\ exists request, sent' = sent ++ [request]))
  /\ (forall fuel queryPaginationEnabled data,
        let options := useQueryResults fuel queryPaginationEnabled data in
        retry options = None
        /\ (queryFn options srv sent = (Rejected e, sent') ->
            useQuery_fetch options srv sent
            = Some ({| data := None; error := Some e |}, sent')
            /\ useQueryResults_onError (Some e) = [e]
            /\ (queryPaginationEnabled = false ->
                sent' = sent \/ exists request, sent' = sent ++ [request]))).
Proof.
  split; [|split].
  - intros projectUuid tableId query. cbn zeta. split; [reflexivity|].
    intros Hfails. split.
    + apply useQuery_fetch_rejected; [by right | exact Hfails].
    + sends_one Hfails.
  - intros queryClient chartUuid dashboardUuid dashboardFilters
      dashboardSorts invalidateCache granularity autoRefresh context
      chartsWithDateZoomApplied.
    cbn zeta. split; [reflexivity|].
    intros Hfails. split.
    + apply useQuery_fetch_rejected; [by right | exact Hfails].
    + sends_one Hfails.
  - intros fuel queryPaginationEnabled data. cbn zeta.
    split; [reflexivity|].
    intros Hfails. split; [|split].
    + apply useQuery_fetch_rejected; [by left | exact Hfails].
    + reflexivity.
    + intros ->. revert Hfails.
      unfold useQueryResults, useQueryResults_queryFn. cbn [queryFn].
      destruct (truthy_string (chain data chartUuid)
                && truthy_string (chain data chartVersionUuid)).
      { intros Hfails. right. sends_one Hfails. }
      destruct (truthy_string (chain data chartUuid)).
      { intros Hfails. right. sends_one Hfails. }
      destruct data as [data|]; [|by intros [= _ <-]; left].
      destruct (query data) as [query|]; [|by intros [= _ <-]; left].
      intros Hfails. right. sends_one Hfails.
Qed.

End Facts.

Section Witnesses.
Import Examples.
#[local] Existing Instance frontend.

Lemma getQueryPaginatedResults_concatenates_pages_witness :
  getQueryPaginatedResults 1 "project-1" paginatedRequest twoPageServer []
  = (Resolved
       {| qr_queryUuid := Some "query-1";
          qr_metricQuery := ordersQuery None;
          qr_cacheMetadata := {| cacheHit := false |};
          qr_rows := ["row-1"; "row-2"; "row-3"];
          qr_fields := ["orders_status"] |},
     [firstPageRequest "project-1" paginatedRequest;
      nextPageRequest "project-1" page1 page1]).
Proof.
  apply (getQueryPaginatedResults_concatenates_pages
           twoPageServer "project-1" paginatedRequest [] page1 [page2] 1).
  - reflexivity.
  - simpl. auto.
  - simpl. lia.
Defined.

Lemma useQueryResults_dispatch_witness :
  chartUuid emptyProps = None
  /\ chartVersionUuid emptyProps = None
  /\ query emptyProps = None
  /\ queryFn (useQueryResults 0 true (Some emptyProps)) twoPageServer []
     = (Rejected (ParameterError "Missing QueryResultsProps"), []).
Proof.
  do 3 (split; [reflexivity|]).
  pose proof (useQueryResults_dispatch 0 true (Some emptyProps))
    as (_ & _ & _ & Hreject).
  apply Hreject; reflexivity.
Defined.

(** C3 does not hold as stated: with a cached response that has no date
    dimension, a set that held a chart still holds it after the render. *)
Lemma useChartAndResults_without_date_dimension_keeps_set :
  cachedHasADateDimension
    (cacheWith None
       (savedChartResultsKey (Some "chart-1") (Some "dashboard-1") "" None
          [] None)) = false
  /\ fst (useChartAndResults (cacheWith None) (Some "chart-1")
            (Some "dashboard-1") "" [] None None None None
            (Some {[ Some "chart-0" ]}))
     = Some {[ Some "chart-0" ]}
  /\ fst (useChartAndResults (cacheWith None) (Some "chart-1")
            (Some "dashboard-1") "" [] None None None None
            (Some {[ Some "chart-0" ]}))
     <> Some ∅.
Proof.
  split; [reflexivity|]. split; [reflexivity|].
  change (Some ({[ Some "chart-0" ]} : gset (option string)) <> Some ∅).
  intros Hempty. apply (inj Some) in Hempty.
  apply (not_elem_of_empty (C := gset (option string)) (Some "chart-0")).
  rewrite <- Hempty. by apply elem_of_singleton.
Qed.

Lemma useChartAndResults_clears_set_without_granularity_witness :
  fst (useChartAndResults (cacheWith (Some "orders_created_day"))
         (Some "chart-1") (Some "dashboard-1") "" [] None None None None
         (Some {[ Some "chart-0" ]}))
  = Some ∅
  /\ fst (useChartAndResults (cacheWith None)
            (Some "chart-1") (Some "dashboard-1") "" [] None None None None
            (Some {[ Some "chart-0" ]}))
     = Some {[ Some "chart-0" ]}.
Proof.
  split.
  - pose proof (useChartAndResults_clears_set_without_granularity
                  (cacheWith (Some "orders_created_day")) (Some "chart-1")
                  (Some "dashboard-1") "" [] None None None None
                  (Some {[ Some "chart-0" ]})) as (Hclear & _).
    apply Hclear; reflexivity.
  - pose proof (useChartAndResults_clears_set_without_granularity
                  (cacheWith None) (Some "chart-1")
                  (Some "dashboard-1") "" [] None None None None
                  (Some {[ Some "chart-0" ]})) as (_ & Hkeep).
    apply Hkeep; reflexivity.
Defined.

Lemma useChartAndResults_granularity_in_key_witness :
  queryKey
    (snd (useChartAndResults (cacheWith (Some "orders_created_day"))
            (Some "chart-1") (Some "dashboard-1") "" [] None (Some "Week")
            None None None))
  = savedChartResultsKey (Some "chart-1") (Some "dashboard-1") "" None []
      None
    ++ [KGranularity "Week"]
  /\ queryKey
       (snd (useChartAndResults (cacheWith (Some "orders_created_day"))
               (Some "chart-1") (Some "dashboard-1") "" [] None None
               None None None))
     = savedChartResultsKey (Some "chart-1") (Some "dashboard-1") "" None []
         None
  /\ queryKey
       (snd (useChartAndResults (cacheWith None)
               (Some "chart-1") (Some "dashboard-1") "" [] None (Some "Week")
               None None None))
     = savedChartResultsKey (Some "chart-1") (Some "dashboard-1") "" None []
         None.
Proof.
  split; [|split].
  - pose proof (useChartAndResults_granularity_in_key
                  (cacheWith (Some "orders_created_day")) (Some "chart-1")
                  (Some "dashboard-1") "" [] None (Some "Week") None None None)
      as (Hwith & _ & _).
    apply (Hwith "Week"); reflexivity.
  - pose proof (useChartAndResults_granularity_in_key
                  (cacheWith (Some "orders_created_day")) (Some "chart-1")
                  (Some "dashboard-1") "" [] None None None None None)
      as (_ & Hwithout & _).
    apply Hwithout; reflexivity.
  - pose proof (useChartAndResults_granularity_in_key
                  (cacheWith None) (Some "chart-1")
                  (Some "dashboard-1") "" [] None (Some "Week") None None None)
      as (_ & _ & Hnodate).
    apply Hnodate; reflexivity.
Defined.

Lemma failed_fetch_is_not_retried_witness :
  useQuery_fetch (useQueryResults 0 false (Some chartProps)) failingServer []
  = Some ({| data := None; error := Some (ApiFailure 500) |},
          [ {| url := "/saved/chart-1/results"; version := None;
               method := "POST"; body := BodyUndefined |} ])
  /\ useQueryResults_onError (Some (ApiFailure 500)) = [ApiFailure 500].
Proof.
  pose proof (failed_fetch_is_not_retried failingServer [] (ApiFailure 500)
                [ {| url := "/saved/chart-1/results"; version := None;
                     method := "POST"; body := BodyUndefined |} ])
    as (_ & _ & Hquery).
  destruct (Hquery 0%nat false (Some chartProps)) as (_ & Hfails).
  destruct (Hfails eq_refl) as (Hfetch & Hreported & _).
  split; [exact Hfetch | exact Hreported].
Defined.

Lemma getQueryPaginatedResults_rejects_on_failed_page_witness :
  getQueryPaginatedResults 0 "project-1" paginatedRequest failingServer []
  = (Rejected (ApiFailure 500),
     [firstPageRequest "project-1" paginatedRequest])
  /\ getQueryPaginatedResults 1 "project-1" paginatedRequest secondPageFails []
     = (Rejected (ApiFailure 500),
        [firstPageRequest "project-1" paginatedRequest;
         nextPageRequest "project-1" page1 page1]).
Proof.
  split.
  - apply (getQueryPaginatedResults_rejects_on_failed_page failingServer
             "project-1" paginatedRequest [] 500 0).
    reflexivity.
  - pose proof (getQueryPaginatedResults_rejects_on_failed_page
                  secondPageFails "project-1" paginatedRequest [] 500 1)
      as (_ & Hlater).
    apply (Hlater page1 []); [reflexivity | by split | simpl; lia].
Defined.

Lemma getQueryPaginatedResults_unbounded_witness :
  fst (getQueryPaginatedResults 3 "project-1" paginatedRequest endlessServer [])
  = Unfinished
  /\ List.length
       (snd (getQueryPaginatedResults 3 "project-1" paginatedRequest
               endlessServer []))
     = 4%nat.
Proof.
  apply (getQueryPaginatedResults_unbounded endlessServer "project-1"
           paginatedRequest []).
  intros sent req. by exists page1.
Defined.

Lemma useQueryResults_paginated_end_to_end_witness :
  queryFn (useQueryResults 1 true (Some adhocProps)) twoPageServer []
  = (Resolved
       {| qr_queryUuid := Some "query-1";
          qr_metricQuery := ordersQuery None;
          qr_cacheMetadata := {| cacheHit := false |};
          qr_rows := ["row-1"; "row-2"; "row-3"];
          qr_fields := ["orders_status"] |},
     [{| url := "/projects/project-1/query";
         version := Some "v2";
         method := "POST";
         body :=
           BodyPaginatedQuery
             {| pp_context := EXPLORE;
                pp_query :=
                  {| pq_query :=
                       {| mq_filters :=
                            convertDateFilters
                              (mq_filters (ordersQuery None));
                          mq_timezone := Undefined;
                          mq_metadata := mq_metadata (ordersQuery None);
                          mq_rest := mq_rest (ordersQuery None) |};
                     pq_exploreName := "orders";
                     pq_granularity := None |} |} |};
      {| url := "/projects/project-1/query";
         version := Some "v2";
         method := "POST";
         body := BodyNextPage "query-1" (Some 2) |}]).
Proof.
  apply (useQueryResults_paginated_end_to_end twoPageServer adhocProps
           (ordersQuery None) [] page1 [page2] 1).
  - reflexivity.
  - reflexivity.
  - reflexivity.
  - simpl. auto.
  - simpl. lia.
Defined.


Lemma useChartAndResults_set_idempotent_witness :
  fst (useChartAndResults (cacheWith (Some "orders_created_day"))
         (Some "chart-1") (Some "dashboard-1") "" [] None (Some "Week")
         None None (Some {[ Some "chart-0" ]}))
  = Some ({[ Some "chart-0" ]} ∪ {[ Some "chart-1" ]}).
Proof.
  pose proof (useChartAndResults_set_idempotent
                (cacheWith (Some "orders_created_day")) (Some "chart-1")
                (Some "dashboard-1") "" [] None (Some "Week") None None
                (Some {[ Some "chart-0" ]})) as (_ & Hgrows).
  destruct (Hgrows eq_refl) as (Hafter & _); [by eexists|].
  exact Hafter.
Defined.

End Witnesses.

End QueryResultsFacts.

(** ** Properties of the export client *)

Module GoogleDriveFacts.
Import Js GoogleDrive.

Section Facts.
Context `{Common}.

Lemma template_Some (missing s : string) : template missing (Some s) = s.
Proof. reflexivity. Qed.

(** *** Stepping through promises *)

Lemma await_returned {A B} (p : Async A) (k : A -> Async B)
    (provider : Provider) (w w' : World) (a : A) :
  p provider w = (Returned a, w') ->
  await p k provider w = k a provider w'.
Proof. intros Hp. unfold await. by rewrite Hp. Qed.

Lemma await_threw {A B} (p : Async A) (k : A -> Async B)
    (provider : Provider) (w w' : World) (err : Thrown) :
  p provider w = (Threw err, w') ->
  await p k provider w = (Threw err, w').
Proof. intros Hp. unfold await. by rewrite Hp. Qed.




(** *** [catchForbiddenError] *)


Lemma catchForbiddenError_other {A} (promise : Async A)
    (provider : Provider) (w w' : World) (err : Thrown) :
  promise provider w = (Threw err, w') ->
  chain (thrown_response err) status <> Some 401 ->
  chain (thrown_response err) status <> Some 400
  \/ chain (chain (thrown_response err) data) error <> Some "invalid_grant" ->
  catchForbiddenError promise provider w = (Threw err, w').
Proof.
  intros Hp H401 Hgrant. unfold catchForbiddenError, try_catch.
  rewrite Hp, (bool_decide_false _ H401).
  destruct Hgrant as [H400 | Hgrant].
  - by rewrite (bool_decide_false _ H400).
  - rewrite (bool_decide_false _ Hgrant). by rewrite andb_false_r.
Qed.

Lemma catchForbiddenError_returned {A} (promise : Async A)
    (provider : Provider) (w w' : World) (a : A) :
  promise provider w = (Returned a, w') ->
  catchForbiddenError promise provider w = (Returned a, w').
Proof.
  intros Hp. unfold catchForbiddenError, try_catch. by rewrite Hp.
Qed.

Lemma call_replies (c : SheetsCall) (provider : Provider) (w : World)
    (data : Spreadsheet) :
  provider (calls w) c = Replies data ->
  call c provider w
  = (Returned data, {| calls := calls w ++ [c]; log := log w |}).
Proof. intros Hc. unfold call. by rewrite Hc. Qed.

Lemma call_throws (c : SheetsCall) (provider : Provider) (w : World)
    (e : ProviderError) :
  provider (calls w) c = Throws e ->
  call c provider w
  = (Threw (Raised e), {| calls := calls w ++ [c]; log := log w |}).
Proof. intros Hc. unfold call. by rewrite Hc. Qed.

(** *** [getCredentials] *)

Lemma getCredentials_replies (this : GoogleDriveClient) (refreshToken : string)
    (provider : Provider) (w : World) (data : Spreadsheet) :
  provider (calls w) (authCall this refreshToken) = Replies data ->
  getCredentials this refreshToken provider w
  = (Returned tt,
     {| calls := calls w ++ [authCall this refreshToken]; log := log w |}).
Proof.
  intros Hauth. unfold getCredentials, try_catch, await.
  by rewrite (call_replies _ _ _ _ Hauth).
Qed.


(** *** [clearTabName] *)

Lemma clearTabName_returns (fileId : string) (tabName : option string)
    (provider : Provider) (w : World) :
  exists w',
    clearTabName fileId tabName provider w = (Returned tt, w')
    /\ (forall w1, clearTabName_try fileId tabName provider w
                   = (Returned tt, w1) -> w' = w1)
    /\ (forall err w1,
          clearTabName_try fileId tabName provider w = (Threw err, w1) ->
          w' = {| calls := calls w1;
                  log := log w1 ++ [LogError "Unable to clear the sheet" err] |}).
Proof.
  unfold clearTabName, try_catch.
  destruct (clearTabName_try fileId tabName provider w) as [[[]|err] w1].
  - exists w1. repeat split; [by intros ? [= ->] | by intros ? ? [=]].
  - eexists. split; [reflexivity|]. split; [by intros ? [=]|].
    by intros ? ? [= <- <-].
Qed.


(** *** A provider that answers 401 *)

Lemma replaceAll_length (from to : ascii) (s : string) :
  String.length (replaceAll from to s) = String.length s.
Proof. induction s as [|c rest IH]; [done|]. cbn. by rewrite IH. Qed.


Lemma createNewTab_title
    (this : GoogleDriveClient) (refreshToken fileId tabName : string)
    (provider : Provider) (w w' : World) (tabTitle : string) :
  createNewTab this refreshToken fileId tabName provider w
  = (Returned tabTitle, w') ->
  tabTitle = replaceAll ":" "." tabName.
Proof.
  unfold createNewTab, await.
  destruct (isEnabled this); [|discriminate]. cbn [negb].
  destruct (getCredentials _ _ _ _) as [[[]|?] ?]; [|discriminate].
  destruct (try_catch _ _ _ _) as [[?|?] ?]; [|discriminate].
  by intros [= <- <-].
Qed.






(** *** A tab that exists already *)

Lemma createNewTab_already_exists
    (this : GoogleDriveClient) (refreshToken fileId tabName : string)
    (provider : Provider) (w : World) (credentials : Spreadsheet)
    (e : ProviderError) (item : ErrorItem) (others : list ErrorItem)
    (text : string) :
  isEnabled this = true ->
  provider (calls w) (authCall this refreshToken) = Replies credentials ->
  provider (calls w ++ [authCall this refreshToken])
    (SpreadsheetsBatchUpdateAddSheet fileId (replaceAll ":" "." tabName))
  = Throws e ->
  code e = Some 400 ->
  chain (response e) status <> Some 401 ->
  chain (chain (response e) data) error <> Some "invalid_grant" ->
  errors e = Some (item :: others) ->
  message item = Some text ->
  createNewTab this refreshToken fileId tabName provider w
  = (Returned (replaceAll ":" "." tabName),
     {| calls := calls w
                 ++ [authCall this refreshToken;
                     SpreadsheetsBatchUpdateAddSheet fileId
                       (replaceAll ":" "." tabName)];
        log := log w
               ++ (if includes text tabName
                   then [LogDebug
                           ("Google sheet tab already exists, we will overwrite it: "
                            +:+ text)]
                   else []) |}).
Proof.
  intros Henabled Hauth Hbatch Hcode H401 Hgrant Herrors Hmessage.
  unfold createNewTab. rewrite Henabled. cbn [negb].
  erewrite await_returned by (by eapply getCredentials_replies).
  erewrite await_returned; [reflexivity|].
  unfold try_catch at 1. erewrite await_threw.
  2:{ eapply catchForbiddenError_other;
        [by apply call_throws | exact H401 | by right]. }
  cbn [thrown_code thrown_errors calls log]. rewrite Hcode.
  rewrite bool_decide_true by done.
  unfold mentionsTab. cbn [thrown_errors]. rewrite Herrors. cbn [head].
  rewrite Hmessage.
  erewrite await_returned by reflexivity.
  rewrite <- app_assoc. destruct (includes text tabName).
  - cbn [chain head]. by rewrite Hmessage, template_Some.
  - rewrite bool_decide_false by done. by rewrite app_nil_r.
Qed.

Lemma clearTabName_named_calls (fileId tabName : string)
    (provider : Provider) (w : World) :
  exists w',
    clearTabName fileId (Some tabName) provider w = (Returned tt, w')
    /\ calls w' = calls w ++ [ValuesClear fileId tabName].
Proof.
  unfold clearTabName, clearTabName_try, try_catch, await, logger,
    catchForbiddenError, try_catch, call.
  cbn [calls log]. destruct (provider (calls w) _) as [data|e].
  - by eexists.
  - repeat case_bool_decide; cbn; by eexists.
Qed.

Lemma appendCsvToSheet_overwrites_existing_tab
    (this : GoogleDriveClient) (refreshToken fileId tabName : string)
    (results : list (list Value)) (provider : Provider) (w : World)
    (e : ProviderError) (item : ErrorItem) (others : list ErrorItem)
    (text : string) :
  isEnabled this = true ->
  (forall before, exists credentials,
     provider before (authCall this refreshToken) = Replies credentials) ->
  (forall before,
     provider before
       (SpreadsheetsBatchUpdateAddSheet fileId (replaceAll ":" "." tabName))
     = Throws e) ->
  (forall before, exists updated,
     provider before
       (ValuesUpdate fileId (replaceAll ":" "." tabName +:+ "!A1") "RAW" results)
     = Replies updated) ->
  code e = Some 400 ->
  chain (response e) status <> Some 401 ->
  chain (chain (response e) data) error <> Some "invalid_grant" ->
  errors e = Some (item :: others) ->
  message item = Some text ->
  tabName <> "" ->
  results <> [] ->
  exists w',
    appendCsvToSheet this refreshToken fileId results (Some tabName) provider w
    = (Returned tt, w')
    /\ calls w'
       = calls w
         ++ [authCall this refreshToken;
             authCall this refreshToken;
             SpreadsheetsBatchUpdateAddSheet fileId (replaceAll ":" "." tabName);
             ValuesClear fileId tabName;
             ValuesUpdate fileId (replaceAll ":" "." tabName +:+ "!A1") "RAW"
               results].
Proof.
  intros Henabled Hauth Hbatch Hupdate Hcode H401 Hgrant Herrors Hmessage
         HtabName Hresults.
  unfold appendCsvToSheet. rewrite Henabled. cbn [negb].
  rewrite bool_decide_false by (by destruct results).
  destruct (Hauth (calls w)) as [credentials Hauth1].
  erewrite await_returned by (by eapply getCredentials_replies).
  assert (Htruthy : truthy_string (Some tabName) = true).
  { cbn [truthy_string]. apply String.eqb_neq in HtabName.
    by rewrite HtabName. }
  rewrite Htruthy, !template_Some.
  set (w1 := {| calls := calls w ++ [authCall this refreshToken];
                log := log w |}).
  set (w2 := {| calls := calls w1;
                log := log w1 ++ [LogInfo ("Creating new tab " +:+ tabName
                                           +:+ " on Google sheets")] |}).
  destruct (Hauth (calls w2)) as [credentials2 Hauth2].
  erewrite (await_returned _ _ _ w1).
  2:{ erewrite (await_returned _ _ _ w1 w2) by reflexivity.
      erewrite await_returned; [reflexivity|].
      eapply createNewTab_already_exists; try eassumption. apply Hbatch. }
  match goal with
  | |- context [await (clearTabName fileId (Some tabName)) _ _ ?w3] =>
      destruct (clearTabName_named_calls fileId tabName provider w3)
        as (w4 & Hclear & Hcalls4)
  end.
  erewrite await_returned by exact Hclear.
  erewrite await_returned by reflexivity.
  assert (Hsanitized :
            truthy_string (Some (replaceAll ":" "." tabName)) = true).
  { cbn [truthy_string]. destruct tabName; [done|]. reflexivity. }
  rewrite Hsanitized, !template_Some.
  match goal with
  | |- context [await _ _ provider ?w5] =>
      destruct (Hupdate (calls w5)) as [updated Hupdated]
  end.
  erewrite await_returned
    by (eapply catchForbiddenError_returned; by apply call_replies).
  eexists. split; [reflexivity|].
  cbn [calls log]. rewrite Hcalls4. subst w2 w1. cbn [calls log].
  by rewrite <- !app_assoc.
Qed.

(** C8. When the request that adds the tab is answered with the error for
    a tab that exists already (code 400 with a first error that carries a
    message), [createNewTab] returns the tab title, after a debug line when
    the message names the tab, and [appendCsvToSheet] goes on to clear the
    tab and upload the values into it.  [clearTabName] never rejects: an
    error thrown while clearing is logged with [Logger.error] and dropped. *)
Theorem existing_tab_and_clear_failures
    (this : GoogleDriveClient) (refreshToken fileId tabName : string)
    (provider : Provider) (w : World)
    (e : ProviderError) (item : ErrorItem) (others : list ErrorItem)
    (text : string) :
  isEnabled this = true ->
  code e = Some 400 ->
  chain (response e) status <> Some 401 ->
  chain (chain (response e) data) error <> Some "invalid_grant" ->
  errors e = Some (item :: others) ->
  message item = Some text ->
  (forall credentials,
     provider (calls w) (authCall this refreshToken) = Replies credentials ->
     provider (calls w ++ [authCall this refreshToken])
       (SpreadsheetsBatchUpdateAddSheet fileId (replaceAll ":" "." tabName))
     = Throws e ->
     createNewTab this refreshToken fileId tabName provider w
     = (Returned (replaceAll ":" "." tabName),
        {| calls := calls w
                    ++ [authCall this refreshToken;
                        SpreadsheetsBatchUpdateAddSheet fileId
                          (replaceAll ":" "." tabName)];
           log := log w
                  ++ (if includes text tabName
                      then [LogDebug
                              ("Google sheet tab already exists, we will overwrite it: "
                               +:+ text)]
                      else []) |}))
  /\ (forall results,
        (forall before, exists credentials,
           provider before (authCall this refreshToken) = Replies credentials) ->
        (forall before,
           provider before
             (SpreadsheetsBatchUpdateAddSheet fileId
                (replaceAll ":" "." tabName))
           = Throws e) ->
        (forall before, exists updated,
           provider before
             (ValuesUpdate fileId (replaceAll ":" "." tabName +:+ "!A1") "RAW"
                results)
           = Replies updated) ->
        tabName <> "" ->
        results <> [] ->
        exists w',
          appendCsvToSheet this refreshToken fileId results (Some tabName)
            provider w
          = (Returned tt, w')
          /\ calls w'
             = calls w
               ++ [authCall this refreshToken;
                   authCall this refreshToken;
                   SpreadsheetsBatchUpdateAddSheet fileId
                     (replaceAll ":" "." tabName);
                   ValuesClear fileId tabName;
                   ValuesUpdate fileId (replaceAll ":" "." tabName +:+ "!A1")
                     "RAW" results])
  /\ (forall sheet tab,
        exists w',
          clearTabName sheet tab provider w = (Returned tt, w')
          /\ forall err w1,
               clearTabName_try sheet tab provider w = (Threw err, w1) ->
               w' = {| calls := calls w1;
                       log := log w1
                              ++ [LogError "Unable to clear the sheet" err] |}).
Proof.
  intros Henabled Hcode H401 Hgrant Herrors Hmessage.
  split; [|split].
  - intros credentials Hauth Hbatch.
    by eapply createNewTab_already_exists.
  - intros results Hauth Hbatch Hupdate HtabName Hresults.
    by eapply appendCsvToSheet_overwrites_existing_tab.
  - intros sheet tab.
    destruct (clearTabName_returns sheet tab provider w)
      as (w' & Hreturns & _ & Hlogged).
    by exists w'.
Qed.

(** C10. On an enabled client, [appendToSheet] without rows and
    [appendCsvToSheet] without a grid return normally and leave the list of
    provider calls as it was: no credentials are loaded, no tab is created
    or cleared, no values are uploaded; one line is logged. *)
Theorem append_nothing_calls_nothing
    (this : GoogleDriveClient) (refreshToken fileId : string)
    (itemMap : gmap string Item) (showTableNames : bool)
    (tabName : option string) (columnOrder : list string)
    (customLabels : gmap string string) (hiddenFields : list string)
    (provider : Provider) (w : World) :
  isEnabled this = true ->
  appendToSheet this refreshToken fileId [] itemMap showTableNames tabName
    columnOrder customLabels hiddenFields provider w
  = (Returned tt,
     {| calls := calls w;
        log := log w ++ [LogInfo "No data to write to the sheet"] |})
  /\ appendCsvToSheet this refreshToken fileId [] tabName provider w
     = (Returned tt,
        {| calls := calls w;
           log := log w ++ [LogInfo "No data to write to the sheet"] |}).
Proof.
  intros Henabled. unfold appendToSheet, appendCsvToSheet.
  by rewrite Henabled.
Qed.

(** C5, as the code has it.  [formatCell] tests in this order: an array is
    joined with commas whatever its field (so ["a","b"] gives "a,b"); a
    value that is not an array, a regular expression or a set, and whose
    field is a date-typed field, goes through [formatDate] with the time
    interval of the field when the field is a dimension and with
    [undefined] otherwise; when the field is not date-typed, a boxed number,
    boolean or string gives the primitive inside it, and a plain object
    gives its JSON string. *)
Theorem formatCell_in_order (item : option Item) (it : Item) :
  formatCell (VArray [VStr "a"; VStr "b"]) item = VStr "a,b"
  /\ (forall elements,
        formatCell (VArray elements) item = VStr (join_values elements))
  /\ (isField it = true -> type_is_DATE it = true ->
      forall value, joinedOrSource value = false ->
      formatCell value (Some it)
      = VStr (formatDate value
                (if isDimension it then timeInterval it else None)))
  /\ (dateTyped item = false ->
      forall n b s,
        formatCell (VBoxedNumber n) item = VNum n
        /\ formatCell (VBoxedBoolean b) item = VBool b
        /\ formatCell (VBoxedString s) item = VStr s)
  /\ (dateTyped item = false ->
      forall properties,
        formatCell (VObject properties) item
        = VStr (JSON_stringify (VObject properties))).
Proof.
  split; [reflexivity|]. split; [reflexivity|]. split; [|split].
  - intros Hfield Hdate value Hplain.
    destruct value; try discriminate Hplain;
      cbn [formatCell dateTyped]; by rewrite Hfield, Hdate.
  - intros Hnodate n b s. cbn [formatCell]. by rewrite Hnodate.
  - intros Hnodate properties. cbn [formatCell]. by rewrite Hnodate.
Qed.

Lemma sort_insert_Permutation (key : string -> Z) (x : string)
    (sorted : list string) :
  sort_insert key x sorted ≡ₚ x :: sorted.
Proof.
  induction sorted as [|y rest IH]; [done|].
  cbn [sort_insert]. destruct (key x - key y <=? 0); [done|].
  rewrite IH. apply Permutation_swap.
Qed.

Lemma sort_by_Permutation (key : string -> Z) (xs : list string) :
  sort_by key xs ≡ₚ xs.
Proof.
  induction xs as [|x rest IH]; [done|].
  cbn [sort_by]. by rewrite sort_insert_Permutation, IH.
Qed.

Lemma array_includes_true (xs : list string) (x : string) :
  array_includes xs x = true <-> x ∈ xs.
Proof.
  unfold array_includes. rewrite existsb_exists. split.
  - intros (y & Hin & Heq). apply String.eqb_eq in Heq. subst y.
    by apply list_elem_of_In.
  - intros Hin. exists x. split; [by apply list_elem_of_In|].
    apply String.eqb_refl.
Qed.

(** The columns written are the keys of the first row that are not hidden. *)
Lemma elem_of_sortedFieldIds
    (firstRow : Row) (columnOrder hiddenFields : list string) (id : string) :
  id ∈ sortedFieldIds firstRow columnOrder hiddenFields
  <-> id ∈ List.map fst firstRow /\ id ∉ hiddenFields.
Proof.
  unfold sortedFieldIds.
  rewrite list_elem_of_In, filter_In, <- list_elem_of_In.
  rewrite sort_by_Permutation, negb_true_iff.
  rewrite <- (array_includes_true hiddenFields).
  destruct (array_includes hiddenFields id);
    split; intros [Hin Hhidden]; (split; [exact Hin | congruence]).
Qed.

Lemma customLabelsAt_own
    (customLabels : gmap string string) (id custom : string) :
  customLabels !! id = Some custom -> customLabelsAt customLabels id = VStr custom.
Proof. unfold customLabelsAt. by intros ->. Qed.

Lemma customLabelsAt_absent (customLabels : gmap string string) (id : string) :
  customLabels !! id = None -> inherited id = None ->
  customLabelsAt customLabels id = VUndefined.
Proof. unfold customLabelsAt. by intros -> ->. Qed.

Lemma itemMapAt_own (itemMap : gmap string Item) (id : string) (item : Item) :
  itemMap !! id = Some item -> itemMapAt itemMap id = Some item.
Proof. unfold itemMapAt. by intros ->. Qed.

Lemma itemMapAt_absent (itemMap : gmap string Item) (id : string) :
  itemMap !! id = None -> inherited id = None -> itemMapAt itemMap id = None.
Proof. unfold itemMapAt. by intros -> ->. Qed.

(** A custom label that is missing or empty is passed over. *)
Lemma customLabelsAt_passed_over
    (customLabels : gmap string string) (id : string) :
  customLabels !! id = Some ""
  \/ (customLabels !! id = None /\ inherited id = None) ->
  truthy (customLabelsAt customLabels id) = false.
Proof.
  intros [Hempty | [Habsent Hplain]].
  - by rewrite (customLabelsAt_own _ _ _ Hempty).
  - by rewrite customLabelsAt_absent.
Qed.

(** C9, as the code has it.  On an enabled client [appendToSheet] uploads,
    for a non-empty [csvContent], a header row followed by the formatted
    rows.  The header of a column is its custom label when that label is a
    non-empty string.  When the custom label is the empty string, or when
    there is none and the field identifier names no member that objects
    inherit, the header is the label of the field's entry in the item map
    when there is one, and the field identifier when there is none and the
    identifier names no inherited member.  The columns are the keys of the
    first row that are not hidden. *)
Theorem appendToSheet_header
    (this : GoogleDriveClient) (refreshToken fileId : string)
    (firstRow : Row) (rows : list Row) (itemMap : gmap string Item)
    (showTableNames : bool) (tabName : option string)
    (columnOrder : list string) (customLabels : gmap string string)
    (hiddenFields : list string) :
  isEnabled this = true ->
  let columns := sortedFieldIds firstRow columnOrder hiddenFields in
  let label := headerLabel itemMap showTableNames customLabels in
  let passedOver id :=
    customLabels !! id = Some ""
    \/ (customLabels !! id = None /\ inherited id = None) in
  appendToSheet this refreshToken fileId (firstRow :: rows) itemMap
    showTableNames tabName columnOrder customLabels hiddenFields
  = appendCsvToSheet this refreshToken fileId
      (List.map label columns
       :: sheetValues (firstRow :: rows) itemMap columns)
      tabName
  /\ (forall id,
        (forall custom, customLabels !! id = Some custom -> custom <> "" ->
                        label id = VStr custom)
        /\ (passedOver id ->
            forall item, itemMap !! id = Some item ->
            label id = VStr (if showTableNames then getItemLabel item
                             else getItemLabelWithoutTableName item))
        /\ (passedOver id ->
            itemMap !! id = None -> inherited id = None ->
            label id = VStr id))
  /\ (forall id, id ∈ columns
                 <-> id ∈ List.map fst firstRow /\ id ∉ hiddenFields).
Proof.
  intros Henabled. cbn zeta. split; [|split].
  - unfold appendToSheet. by rewrite Henabled.
  - intros id. unfold headerLabel. split; [|split].
    + intros custom Hown Hcustom.
      rewrite (customLabelsAt_own _ _ _ Hown). cbn [truthy].
      apply String.eqb_neq in Hcustom. by rewrite Hcustom.
    + intros Hpassed item Hitem.
      by rewrite (customLabelsAt_passed_over _ _ Hpassed),
        (itemMapAt_own _ _ _ Hitem).
    + intros Hpassed Hitem Hplain.
      by rewrite (customLabelsAt_passed_over _ _ Hpassed),
        (itemMapAt_absent _ _ Hitem Hplain).
  - apply elem_of_sortedFieldIds.
Qed.

(** *** More on the client *)

(** X6. A client built from a configuration that lacks the OAuth client
    identifier or the client secret is disabled, and every operation of a
    disabled client rejects with [MissingConfigError] before anything else:
    no credentials are loaded, nothing is sent to the provider, nothing is
    logged, also when there is nothing to write. *)
Theorem disabled_client_rejects
    (lightdashConfig : GoogleAuthConfig) (refreshToken fileId : string)
    (provider : Provider) (w : World) :
  oauth2ClientId lightdashConfig = None
  \/ oauth2ClientSecret lightdashConfig = None ->
  let this := constructor lightdashConfig in
  let rejected {A} : Result A * World :=
    (Threw (MissingConfigError "Google Drive is not enabled"), w) in
  isEnabled this = false
  /\ (forall tabName,
        createNewTab this refreshToken fileId tabName provider w = rejected)
  /\ (forall title,
        createNewSheet this refreshToken title provider w = rejected)
  /\ (forall updateFrequency tabs reportUrl timeOfLastSync,
        uploadMetadata this refreshToken fileId updateFrequency tabs reportUrl
          timeOfLastSync provider w = rejected)
  /\ (forall results tabName,
        appendCsvToSheet this refreshToken fileId results tabName provider w
        = rejected)
  /\ (forall csvContent itemMap showTableNames tabName columnOrder
             customLabels hiddenFields,
        appendToSheet this refreshToken fileId csvContent itemMap
          showTableNames tabName columnOrder customLabels hiddenFields
          provider w = rejected).
Proof.
  intros Hmissing. cbn zeta.
  assert (Hdisabled : isEnabled (constructor lightdashConfig) = false).
  { unfold constructor. cbn [isEnabled].
    destruct Hmissing as [-> | ->]; [done|].
    by rewrite andb_false_r. }
  split; [exact Hdisabled|].
  unfold createNewTab, createNewSheet, uploadMetadata, appendCsvToSheet,
    appendToSheet.
  rewrite Hdisabled. by repeat split.
Qed.

(** X7. [catchForbiddenError] leaves a resolved value alone; it turns a 400
    response whose error is [invalid_grant] into a [ForbiddenError] that
    says the token could not be refreshed; every error that is neither
    that nor a 401 is thrown again as it came.  In all cases the calls
    made and the lines logged are those of the wrapped promise. *)
Theorem catchForbiddenError_classifies {A} (promise : Async A)
    (provider : Provider) (w : World) :
  snd (catchForbiddenError promise provider w) = snd (promise provider w)
  /\ (forall a w', promise provider w = (Returned a, w') ->
        catchForbiddenError promise provider w = (Returned a, w'))
  /\ (forall err w',
        promise provider w = (Threw err, w') ->
        chain (thrown_response err) status = Some 400 ->
        chain (chain (thrown_response err) data) error = Some "invalid_grant" ->
        catchForbiddenError promise provider w
        = (Threw (ForbiddenError
                    ("Failed to refresh token: invalid_grant: "
                     +:+ template "undefined"
                           (chain (chain (thrown_response err) data)
                                  error_description))),
           w'))
  /\ (forall err w',
        promise provider w = (Threw err, w') ->
        chain (thrown_response err) status <> Some 401 ->
        chain (thrown_response err) status <> Some 400
        \/ chain (chain (thrown_response err) data) error
           <> Some "invalid_grant" ->
        catchForbiddenError promise provider w = (Threw err, w')).
Proof.
  split; [|split; [|split]].
  - unfold catchForbiddenError, try_catch.
    destruct (promise provider w) as [[a|err] w']; [done|].
    by repeat case_match.
  - intros a w' Hp. by apply catchForbiddenError_returned.
  - intros err w' Hp Hstatus Hgrant.
    unfold catchForbiddenError, try_catch. rewrite Hp, Hstatus, Hgrant.
    rewrite bool_decide_false by done. by rewrite !bool_decide_true.
  - intros err w' Hp H401 Hother. by apply catchForbiddenError_other.
Qed.

(** X8. [getCredentials] makes one call, to load the credentials; when that
    call throws, whatever the error, the promise rejects with a
    [ForbiddenError] that quotes it. *)
Theorem getCredentials_forbidden_on_any_error
    (this : GoogleDriveClient) (refreshToken : string)
    (provider : Provider) (w : World) :
  snd (getCredentials this refreshToken provider w)
  = {| calls := calls w ++ [authCall this refreshToken]; log := log w |}
  /\ (forall credentials,
        provider (calls w) (authCall this refreshToken) = Replies credentials ->
        fst (getCredentials this refreshToken provider w) = Returned tt)
  /\ (forall e,
        provider (calls w) (authCall this refreshToken) = Throws e ->
        fst (getCredentials this refreshToken provider w)
        = Threw (ForbiddenError
                   ("Failed to get credentials: " +:+ rendering e))).
Proof.
  unfold getCredentials, try_catch, await, call.
  destruct (provider (calls w) _) as [data|e];
    (split; [reflexivity|]; split; intros ? Heq; by inversion Heq).
Qed.

Lemma replaceAll_colon_includes (s : string) :
  includes (replaceAll ":" "." s) ":" = false.
Proof.
  unfold includes.
  assert (Hindex : String.index 0 ":" (replaceAll ":" "." s) = None);
    [|by rewrite Hindex].
  induction s as [|c rest IH]; [reflexivity|].
  cbn [replaceAll]. destruct (Ascii.eqb_spec c ":") as [->|Hc].
  - cbn. by rewrite IH.
  - cbn [String.index prefix]. destruct (ascii_dec ":" c) as [<-|_]; [done|].
    by rewrite IH.
Qed.

Lemma replaceAll_absent (s : string) :
  includes s ":" = false -> replaceAll ":" "." s = s.
Proof.
  unfold includes. induction s as [|c rest IH]; [done|].
  cbn [String.index prefix replaceAll].
  destruct (ascii_dec ":" c) as [<-|Hc].
  - by destruct rest.
  - destruct (Ascii.eqb_spec c ":") as [->|_]; [done|].
    destruct (String.index 0 ":" rest); [done|]. intros _. by rewrite IH.
Qed.

(** X9. The title that [createNewTab] returns is the tab name with every
    colon replaced by a dot: it holds no colon, is as long as the tab
    name, and is the tab name itself when that holds no colon. *)
Theorem createNewTab_returns_sanitized_title
    (this : GoogleDriveClient) (refreshToken fileId tabName : string)
    (provider : Provider) (w w' : World) (tabTitle : string) :
  createNewTab this refreshToken fileId tabName provider w
  = (Returned tabTitle, w') ->
  includes tabTitle ":" = false
  /\ String.length tabTitle = String.length tabName
  /\ (includes tabName ":" = false -> tabTitle = tabName).
Proof.
  intros ->%createNewTab_title. split; [|split].
  - apply replaceAll_colon_includes.
  - apply replaceAll_length.
  - apply replaceAll_absent.
Qed.

Lemma createNewTab_replies
    (this : GoogleDriveClient) (refreshToken fileId tabName : string)
    (provider : Provider) (w : World) (credentials added : Spreadsheet) :
  isEnabled this = true ->
  provider (calls w) (authCall this refreshToken) = Replies credentials ->
  provider (calls w ++ [authCall this refreshToken])
    (SpreadsheetsBatchUpdateAddSheet fileId (replaceAll ":" "." tabName))
  = Replies added ->
  createNewTab this refreshToken fileId tabName provider w
  = (Returned (replaceAll ":" "." tabName),
     {| calls := calls w
                 ++ [authCall this refreshToken;
                     SpreadsheetsBatchUpdateAddSheet fileId
                       (replaceAll ":" "." tabName)];
        log := log w |}).
Proof.
  intros Henabled Hauth Hbatch. unfold createNewTab.
  rewrite Henabled. cbn [negb].
  erewrite await_returned by (by eapply getCredentials_replies).
  erewrite await_returned; [reflexivity|].
  unfold try_catch at 1. erewrite await_returned.
  2:{ eapply catchForbiddenError_returned. by apply call_replies. }
  unfold ret. cbn [calls log]. by rewrite <- app_assoc.
Qed.

(** X10. [createNewTab] drops every error of the request that adds the tab
    other than a 401, an [invalid_grant], a code 400 and a code 500: the
    promise resolves with the tab title as if the tab had been added, and
    nothing is logged. *)
Theorem createNewTab_drops_other_errors
    (this : GoogleDriveClient) (refreshToken fileId tabName : string)
    (provider : Provider) (w : World) (credentials : Spreadsheet)
    (e : ProviderError) :
  isEnabled this = true ->
  provider (calls w) (authCall this refreshToken) = Replies credentials ->
  provider (calls w ++ [authCall this refreshToken])
    (SpreadsheetsBatchUpdateAddSheet fileId (replaceAll ":" "." tabName))
  = Throws e ->
  chain (response e) status <> Some 401 ->
  chain (response e) status <> Some 400
  \/ chain (chain (response e) data) error <> Some "invalid_grant" ->
  code e <> Some 400 ->
  code e <> Some 500 ->
  createNewTab this refreshToken fileId tabName provider w
  = (Returned (replaceAll ":" "." tabName),
     {| calls := calls w
                 ++ [authCall this refreshToken;
                     SpreadsheetsBatchUpdateAddSheet fileId
                       (replaceAll ":" "." tabName)];
        log := log w |}).
Proof.
  intros Henabled Hauth Hbatch H401 Hother H400 H500. unfold createNewTab.
  rewrite Henabled. cbn [negb].
  erewrite await_returned by (by eapply getCredentials_replies).
  erewrite await_returned; [reflexivity|].
  unfold try_catch at 1. erewrite await_threw.
  2:{ eapply catchForbiddenError_other;
        [by apply call_throws | exact H401 | exact Hother]. }
  cbn [thrown_code calls log].
  rewrite (bool_decide_false _ H400), (bool_decide_false _ H500).
  erewrite await_returned by reflexivity.
  unfold ret. by rewrite <- app_assoc.
Qed.

(** X11. A code-400 error of unexpected shape.  Without an [errors] array,
    or with a first error that has no [message], reading the message
    throws: [createNewTab] rejects with a [TypeError].  With an empty
    [errors] array the error is dropped and the tab title returned. *)
Theorem createNewTab_malformed_400
    (this : GoogleDriveClient) (refreshToken fileId tabName : string)
    (provider : Provider) (w : World) (credentials : Spreadsheet)
    (e : ProviderError) :
  isEnabled this = true ->
  provider (calls w) (authCall this refreshToken) = Replies credentials ->
  provider (calls w ++ [authCall this refreshToken])
    (SpreadsheetsBatchUpdateAddSheet fileId (replaceAll ":" "." tabName))
  = Throws e ->
  chain (response e) status <> Some 401 ->
  chain (chain (response e) data) error <> Some "invalid_grant" ->
  code e = Some 400 ->
  (errors e = None ->
   fst (createNewTab this refreshToken fileId tabName provider w)
   = Threw TypeError)
  /\ (forall item others,
        errors e = Some (item :: others) -> message item = None ->
        fst (createNewTab this refreshToken fileId tabName provider w)
        = Threw TypeError)
  /\ (errors e = Some [] ->
      fst (createNewTab this refreshToken fileId tabName provider w)
      = Returned (replaceAll ":" "." tabName)).
Proof.
  intros Henabled Hauth Hbatch H401 Hgrant Hcode.
  assert (Hhandler :
    forall outcome : Result unit * World,
      (do alreadyExists <- mentionsTab (Raised e) tabName;
       if alreadyExists then
         logger (LogDebug
                   ("Google sheet tab already exists, we will overwrite it: "
                    +:+ template "undefined"
                          (chain (chain (thrown_errors (Raised e)) head)
                                 message)))
       else if bool_decide (thrown_code (Raised e) = Some 500) then
         throw (GoogleSheetsTransientError (Raised e))
       else ret tt) provider
        {| calls := (calls w ++ [authCall this refreshToken])
                    ++ [SpreadsheetsBatchUpdateAddSheet fileId
                          (replaceAll ":" "." tabName)];
           log := log w |} = outcome ->
      fst (createNewTab this refreshToken fileId tabName provider w)
      = match fst outcome with
        | Returned _ => Returned (replaceAll ":" "." tabName)
        | Threw err => Threw err
        end).
  { intros outcome Houtcome. unfold createNewTab.
    rewrite Henabled. cbn [negb].
    erewrite await_returned by (by eapply getCredentials_replies).
    unfold await at 1, try_catch at 1.
    erewrite await_threw.
    2:{ eapply catchForbiddenError_other;
          [by apply call_throws | exact H401 | by right]. }
    cbn [calls log]. rewrite (bool_decide_true _ Hcode) at 1.
    rewrite Houtcome. by destruct outcome as [[[]|err] w']. }
  split; [|split].
  - intros Herrors. erewrite Hhandler; [|reflexivity].
    unfold mentionsTab, await. cbn [thrown_errors]. by rewrite Herrors.
  - intros item others Herrors Hmessage. erewrite Hhandler; [|reflexivity].
    unfold mentionsTab, await. cbn [thrown_errors]. rewrite Herrors.
    cbn [head]. by rewrite Hmessage.
  - intros Herrors. erewrite Hhandler; [|reflexivity].
    unfold mentionsTab, await. cbn [thrown_errors thrown_code].
    rewrite Herrors, Hcode. cbn [head]. by rewrite bool_decide_false.
Qed.

(** X12. The order of the provider calls when writing to a named tab.
    With credentials that load and a tab that is added, [appendCsvToSheet]
    calls, in this order: credentials, credentials again (for the tab), add
    the tab under its sanitized title, clear the range named by the tab
    name as given, upload the values at [A1] of the sanitized title.  The
    promise resolves when the upload is answered, and rejects with the
    provider's own error when the upload fails with an error that
    [catchForbiddenError] lets through. *)
Theorem appendCsvToSheet_named_tab_calls
    (this : GoogleDriveClient) (refreshToken fileId tabName : string)
    (results : list (list Value)) (provider : Provider) (w : World) :
  isEnabled this = true ->
  (forall before, exists credentials,
     provider before (authCall this refreshToken) = Replies credentials) ->
  (forall before, exists added,
     provider before
       (SpreadsheetsBatchUpdateAddSheet fileId (replaceAll ":" "." tabName))
     = Replies added) ->
  tabName <> "" ->
  results <> [] ->
  let upload :=
    ValuesUpdate fileId (replaceAll ":" "." tabName +:+ "!A1") "RAW" results in
  let before :=
    calls w
    ++ [authCall this refreshToken;
        authCall this refreshToken;
        SpreadsheetsBatchUpdateAddSheet fileId (replaceAll ":" "." tabName);
        ValuesClear fileId tabName] in
  let run :=
    appendCsvToSheet this refreshToken fileId results (Some tabName)
      provider w in
  calls (snd run) = before ++ [upload]
  /\ (forall updated, provider before upload = Replies updated ->
        fst run = Returned tt)
  /\ (forall e, provider before upload = Throws e ->
        chain (response e) status <> Some 401 ->
        chain (response e) status <> Some 400
        \/ chain (chain (response e) data) error <> Some "invalid_grant" ->
        fst run = Threw (Raised e)).
Proof.
  intros Henabled Hauth Hbatch HtabName Hresults. cbn zeta.
  unfold appendCsvToSheet. rewrite Henabled. cbn [negb].
  rewrite bool_decide_false by (by destruct results).
  destruct (Hauth (calls w)) as [credentials Hauth1].
  erewrite await_returned by (by eapply getCredentials_replies).
  assert (Htruthy : truthy_string (Some tabName) = true).
  { cbn [truthy_string]. apply String.eqb_neq in HtabName.
    by rewrite HtabName. }
  rewrite Htruthy, !template_Some.
  set (w1 := {| calls := calls w ++ [authCall this refreshToken];
                log := log w |}).
  set (w2 := {| calls := calls w1;
                log := log w1 ++ [LogInfo ("Creating new tab " +:+ tabName
                                           +:+ " on Google sheets")] |}).
  destruct (Hauth (calls w2)) as [credentials2 Hauth2].
  destruct (Hbatch (calls w2 ++ [authCall this refreshToken]))
    as [added Hadded].
  erewrite (await_returned _ _ _ w1).
  2:{ erewrite (await_returned _ _ _ w1 w2) by reflexivity.
      erewrite await_returned; [reflexivity|].
      by eapply createNewTab_replies. }
  match goal with
  | |- context [await (clearTabName fileId (Some tabName)) _ _ ?w3] =>
      destruct (clearTabName_named_calls fileId tabName provider w3)
        as (w4 & Hclear & Hcalls4)
  end.
  erewrite await_returned by exact Hclear.
  erewrite await_returned by reflexivity.
  assert (Hsanitized :
            truthy_string (Some (replaceAll ":" "." tabName)) = true).
  { cbn [truthy_string]. destruct tabName; [done|]. reflexivity. }
  rewrite Hsanitized, !template_Some.
  assert (Hbefore :
    calls w4
    = calls w
      ++ [authCall this refreshToken;
          authCall this refreshToken;
          SpreadsheetsBatchUpdateAddSheet fileId (replaceAll ":" "." tabName);
          ValuesClear fileId tabName]).
  { rewrite Hcalls4. subst w2 w1. cbn [calls log]. by rewrite <- !app_assoc. }
  rewrite <- Hbefore.
  match goal with
  | |- context [await _ _ provider ?w5] => set (w5' := w5)
  end.
  change (calls w4) with (calls w5').
  unfold await, catchForbiddenError, try_catch at 1 2 3, call.
  split; [|split].
  - destruct (provider (calls w5') _) as [updated|e]; [done|].
    destruct (bool_decide _); [reflexivity|].
    destruct (andb _ _); reflexivity.
  - intros updated ->. done.
  - intros e -> H401 Hother. cbn [thrown_response].
    rewrite (bool_decide_false _ H401).
    destruct Hother as [H400 | Hgrant].
    + by rewrite (bool_decide_false _ H400).
    + rewrite (bool_decide_false _ Hgrant). by rewrite andb_false_r.
Qed.

Lemma guarded_call_calls (c : SheetsCall) (provider : Provider) (w : World) :
  calls (snd (await (catchForbiddenError (call c)) (fun _ => ret tt)
                provider w))
  = calls w ++ [c].
Proof.
  unfold await, catchForbiddenError, try_catch, call.
  destruct (provider (calls w) c) as [data|e]; [done|].
  destruct (bool_decide _); [reflexivity|].
  destruct (andb _ _); reflexivity.
Qed.

Lemma clearTabName_first_sheet_calls (fileId : string)
    (provider : Provider) (w : World) (spreadsheet : Spreadsheet) :
  provider (calls w) (SpreadsheetsGet fileId) = Replies spreadsheet ->
  exists w',
    clearTabName fileId None provider w = (Returned tt, w')
    /\ calls w'
       = calls w
         ++ SpreadsheetsGet fileId
            :: (if truthy_string (firstSheetTitle spreadsheet)
                then [ValuesClear fileId
                        (template "undefined" (firstSheetTitle spreadsheet))]
                else []).
Proof.
  intros Hget.
  unfold clearTabName, clearTabName_try, try_catch at 1.
  erewrite await_returned
    by (eapply catchForbiddenError_returned; by apply call_replies).
  unfold firstSheetTitle.
  destruct (sheets spreadsheet) as [[|first others]|]; cbn [chain head].
  - by eexists.
  - erewrite await_returned by reflexivity.
    destruct (truthy_string (chain (properties first) title)); cbn [negb].
    + unfold await at 1, logger at 1. cbn [calls log].
      unfold await, catchForbiddenError, try_catch, call. cbn [calls log].
      destruct (provider _ (ValuesClear _ _)) as [data|e].
      * eexists. split; [reflexivity|]. cbn [calls]. by rewrite <- app_assoc.
      * destruct (bool_decide _);
          [|destruct (andb _ _)];
          (eexists; split; [reflexivity|]; cbn [calls];
           by rewrite <- app_assoc).
    + by eexists.
  - erewrite await_returned by reflexivity. by eexists.
Qed.

(** X13. Writing without a tab name.  With credentials that load and a
    spreadsheet that can be read, [appendCsvToSheet] reads the spreadsheet,
    clears the range named by the title of its first sheet, and uploads
    the values at [A1].  When no title is found for the first sheet (no
    sheets, no properties, no title or an empty one), nothing is cleared
    and the values are uploaded all the same. *)
Theorem appendCsvToSheet_first_sheet_calls
    (this : GoogleDriveClient) (refreshToken fileId : string)
    (results : list (list Value)) (provider : Provider) (w : World)
    (credentials spreadsheet : Spreadsheet) :
  isEnabled this = true ->
  provider (calls w) (authCall this refreshToken) = Replies credentials ->
  provider (calls w ++ [authCall this refreshToken]) (SpreadsheetsGet fileId)
  = Replies spreadsheet ->
  results <> [] ->
  calls (snd (appendCsvToSheet this refreshToken fileId results None
                provider w))
  = calls w
    ++ [authCall this refreshToken; SpreadsheetsGet fileId]
    ++ (if truthy_string (firstSheetTitle spreadsheet)
        then [ValuesClear fileId
                (template "undefined" (firstSheetTitle spreadsheet))]
        else [])
    ++ [ValuesUpdate fileId "A1" "RAW" results].
Proof.
  intros Henabled Hauth Hget Hresults.
  unfold appendCsvToSheet. rewrite Henabled. cbn [negb].
  rewrite bool_decide_false by (by destruct results).
  erewrite await_returned by (by eapply getCredentials_replies).
  cbn [truthy_string]. erewrite await_returned by reflexivity.
  match goal with
  | |- context [await (clearTabName fileId None) _ _ ?w1] =>
      destruct (clearTabName_first_sheet_calls fileId provider w1 spreadsheet)
        as (w2 & Hclear & Hcalls2); [exact Hget|]
  end.
  erewrite await_returned by exact Hclear.
  erewrite await_returned by reflexivity.
  rewrite guarded_call_calls. cbn [calls]. rewrite Hcalls2. cbn [calls].
  rewrite <- !app_assoc. reflexivity.
Qed.

(** X14. What [uploadMetadata] sends.  With credentials that load and a
    [metadata] tab that is added, the calls are: credentials, credentials
    again, add the tab [metadata], clear it, and one upload at
    [metadata!A1], entered as a user would, of three fixed rows, a row for
    the report URL when one is given, and one row per tab; without a list
    of tabs a single empty row stands in their place. *)
Theorem uploadMetadata_calls
    (this : GoogleDriveClient) (refreshToken fileId updateFrequency : string)
    (tabs : option (list string)) (reportUrl : option string)
    (timeOfLastSync : string) (provider : Provider) (w : World) :
  isEnabled this = true ->
  (forall before, exists credentials,
     provider before (authCall this refreshToken) = Replies credentials) ->
  (forall before, exists added,
     provider before (SpreadsheetsBatchUpdateAddSheet fileId "metadata")
     = Replies added) ->
  let rows := metadataRows updateFrequency tabs reportUrl timeOfLastSync in
  calls (snd (uploadMetadata this refreshToken fileId updateFrequency tabs
                reportUrl timeOfLastSync provider w))
  = calls w
    ++ [authCall this refreshToken;
        authCall this refreshToken;
        SpreadsheetsBatchUpdateAddSheet fileId "metadata";
        ValuesClear fileId "metadata";
        ValuesUpdate fileId "metadata!A1" "USER_ENTERED" rows]
  /\ List.length rows
     = (3 + (if truthy_string reportUrl then 1 else 0)
        + match tabs with
          | Some tabs => List.length tabs
          | None => 1
          end)%nat.
Proof.
  intros Henabled Hauth Hbatch. cbn zeta. split.
  - unfold uploadMetadata. rewrite Henabled. cbn [negb].
    destruct (Hauth (calls w)) as [credentials Hauth1].
    erewrite await_returned by (by eapply getCredentials_replies).
    set (w1 := {| calls := calls w ++ [authCall this refreshToken];
                  log := log w |}).
    destruct (Hauth (calls w1)) as [credentials2 Hauth2].
    destruct (Hbatch (calls w1 ++ [authCall this refreshToken]))
      as [added Hadded].
    erewrite await_returned
      by (eapply (createNewTab_replies this refreshToken fileId "metadata");
          eassumption).
    match goal with
    | |- context [await (clearTabName fileId (Some "metadata")) _ _ ?w3] =>
        destruct (clearTabName_named_calls fileId "metadata" provider w3)
          as (w4 & Hclear & Hcalls4)
    end.
    erewrite await_returned by exact Hclear.
    rewrite guarded_call_calls, Hcalls4. subst w1. cbn [calls].
    rewrite <- !app_assoc. reflexivity.
  - unfold metadataRows. rewrite !length_app. cbn [List.length].
    destruct (truthy_string reportUrl), tabs as [tabs|]; cbn [List.length];
      rewrite ?length_imap; lia.
Qed.

(** *** More on the cells and the columns *)

(** X15. Whatever the value and the field, [formatCell] never returns an
    array, a set, a regular expression, a boxed primitive or a plain
    object.  It does return functions: a function is returned as it is
    for a field that is not date-typed, and a row that has no key
    [constructor] of its own yields one for a column of that name. *)
Theorem formatCell_never_object (value : Value) (item : option Item) :
  objectButDate (formatCell value item) = false
  /\ (forall source,
        dateTyped item = false ->
        formatCell (VFunction source) item = VFunction source)
  /\ (forall row : Row,
        getOwn row "constructor" = None ->
        exists source, get row "constructor" = VFunction source).
Proof.
  split; [|split].
  - destruct value; cbn [formatCell]; try reflexivity;
      by destruct (dateTyped item).
  - intros source Hnodate. cbn [formatCell]. by rewrite Hnodate.
  - intros row Hown. unfold get. rewrite Hown. by eexists.
Qed.

(** X16. Arrays and sets are formatted without regard to the field, a set
    as the array of its elements; an array of strings gives the strings
    separated by commas (the empty string for the empty array); and a
    [null] or [undefined] element counts as the empty string. *)
Theorem formatCell_joins (item item' : option Item) :
  (forall elements,
     formatCell (VArray elements) item = formatCell (VArray elements) item'
     /\ formatCell (VSet elements) item = formatCell (VArray elements) item')
  /\ (forall strings,
        formatCell (VArray (List.map VStr strings)) item
        = VStr (String.concat "," strings))
  /\ (forall before after,
        formatCell (VArray (before ++ VNull :: after)) item
        = formatCell (VArray (before ++ VStr "" :: after)) item
        /\ formatCell (VArray (before ++ VUndefined :: after)) item
           = formatCell (VArray (before ++ VStr "" :: after)) item).
Proof.
  split; [|split].
  - by intros elements.
  - intros strings. cbn [formatCell]. f_equal.
    unfold join_values. cbn [toString]. unfold join. f_equal.
    rewrite List.map_map. cbn [toString].
    induction strings as [|s rest IH]; [done|]. cbn [List.map]. by rewrite IH.
  - intros before after. cbn [formatCell]. unfold join_values.
    cbn [toString]. by rewrite !List.map_app.
Qed.

(** X17. For a field that is not date-typed, [formatCell] returns the
    values a sheet takes as they are unchanged, and formatting a formatted
    cell again changes nothing. *)
Theorem formatCell_stable (value : Value) (item : option Item) :
  dateTyped item = false ->
  (sheetSafe value = true -> formatCell value item = value)
  /\ formatCell (formatCell value item) item = formatCell value item.
Proof.
  intros Hnodate. split.
  - destruct value; try discriminate; intros _; cbn [formatCell];
      by rewrite Hnodate.
  - destruct value; cbn [formatCell]; rewrite ?Hnodate; cbn [formatCell];
      by rewrite ?Hnodate.
Qed.

Lemma lookup_List_map {A B} (f : A -> B) (l : list A) (i : nat) :
  List.map f l !! i = f <$> l !! i.
Proof.
  revert i. induction l as [|x l IH]; intros [|i]; try done. apply IH.
Qed.

Lemma getOwn_first (row : Row) (id : string) (value : Value) :
  getOwn row id = Some value -> (id, value) ∈ row.
Proof.
  induction row as [|[k v] row IH]; [done|].
  cbn [getOwn]. destruct (String.eqb_spec k id) as [->|_].
  - intros [= ->]. by left.
  - intros Hrest. right. by apply IH.
Qed.

(** X18. The grid that [appendToSheet] uploads is rectangular: one header
    row and one row per row of [csvContent], each with one cell per
    column, the columns being at most as many as the keys of the first
    row.  The cell of a row under a column is [formatCell] of what the row
    yields for the column's field and of what the item map yields for it.
    A row yields a value it holds under the key; when it lacks the key it
    yields the member that objects inherit under that name, and
    [undefined] when there is none.  The item map likewise yields its own
    entry, else the inherited member, else nothing. *)
Theorem appendToSheet_grid
    (this : GoogleDriveClient) (refreshToken fileId : string)
    (firstRow : Row) (rows : list Row) (itemMap : gmap string Item)
    (showTableNames : bool) (tabName : option string)
    (columnOrder : list string) (customLabels : gmap string string)
    (hiddenFields : list string) :
  isEnabled this = true ->
  let columns := sortedFieldIds firstRow columnOrder hiddenFields in
  exists grid : list (list Value),
    appendToSheet this refreshToken fileId (firstRow :: rows) itemMap
      showTableNames tabName columnOrder customLabels hiddenFields
    = appendCsvToSheet this refreshToken fileId grid tabName
    /\ List.length grid = S (S (List.length rows))
    /\ Forall (fun cells => List.length cells = List.length columns) grid
    /\ (List.length columns <= List.length firstRow)%nat
    /\ (forall i row j id,
          (firstRow :: rows) !! i = Some row ->
          columns !! j = Some id ->
          grid !! S i ≫= (fun cells => cells !! j)
          = Some (formatCell (get row id) (itemMapAt itemMap id)))
    /\ (forall row id,
          (exists value, get row id = value /\ (id, value) ∈ row)
          \/ ((forall value, (id, value) ∉ row)
              /\ get row id = default VUndefined (inherited id)))
    /\ (forall id,
          (forall item, itemMap !! id = Some item ->
                        itemMapAt itemMap id = Some item)
          /\ (itemMap !! id = None ->
              itemMapAt itemMap id = inheritedItem <$> inherited id))
    /\ inherited "constructor"
       = Some (VFunction "function Object() { [native code] }")
    /\ inherited "orders_status" = None.
Proof.
  intros Henabled. cbn zeta. eexists.
  split; [|split; [|split; [|split; [|split; [|split; [|split; [|split]]]]]]].
  - unfold appendToSheet. rewrite Henabled. reflexivity.
  - cbn [List.length]. unfold sheetValues. by rewrite !length_map.
  - constructor.
    + unfold csvHeader. by rewrite length_map.
    + unfold sheetValues. apply Forall_forall. intros cells Hin.
      apply list_elem_of_In, in_map_iff in Hin as (row & <- & _).
      by rewrite length_map.
  - unfold sortedFieldIds.
    etransitivity; [apply filter_length_le|].
    rewrite (Permutation_length (sort_by_Permutation _ _)).
    by rewrite length_map.
  - intros i row j id Hrow Hid. cbn [lookup list_lookup].
    change (sheetValues (firstRow :: rows) itemMap
              (sortedFieldIds firstRow columnOrder hiddenFields) !! i
            ≫= (fun cells => cells !! j)
            = Some (formatCell (get row id) (itemMapAt itemMap id))).
    unfold sheetValues. rewrite lookup_List_map, Hrow. cbn [fmap option_fmap option_map mbind option_bind].
    by rewrite lookup_List_map, Hid.
  - intros row id. unfold get.
    destruct (getOwn row id) as [value|] eqn:Hown.
    + left. exists value. split; [done|]. by apply getOwn_first.
    + right. split; [|done]. intros value Hin.
      apply list_elem_of_In in Hin.
      clear -Hown Hin. induction row as [|[k v] row IH]; [done|].
      cbn [getOwn] in Hown. destruct (String.eqb_spec k id) as [->|Hne];
        [done|].
      destruct Hin as [[= -> ->]|Hin]; [done|]. by apply IH.
  - intros id. split.
    + apply itemMapAt_own.
    + unfold itemMapAt. by intros ->.
  - reflexivity.
  - reflexivity.
Qed.

Lemma indexOf_from_absent (xs : list string) (x : string) (i : Z) :
  0 <= i -> (indexOf_from i xs x = -1 <-> x ∉ xs).
Proof.
  revert i. induction xs as [|y ys IH]; intros i Hi; cbn [indexOf_from].
  - split; [intros _; apply not_elem_of_nil | done].
  - destruct (String.eqb_spec y x) as [->|Hne].
    + split; [lia|]. intros Hnot. exfalso. apply Hnot. by left.
    + rewrite IH by lia. rewrite not_elem_of_cons.
      split; [intros Hnot; split; [congruence | exact Hnot] | by intros [_ ?]].
Qed.

Lemma sort_insert_StronglySorted (key : string -> Z) (x : string)
    (sorted : list string) :
  StronglySorted (fun a b => key a <= key b) sorted ->
  StronglySorted (fun a b => key a <= key b) (sort_insert key x sorted).
Proof.
  induction 1 as [|y rest Hrest IH Hy]; cbn [sort_insert].
  - by repeat constructor.
  - destruct (Z.leb_spec (key x - key y) 0) as [Hle|Hgt].
    + constructor; [by constructor|]. constructor; [lia|].
      eapply Forall_impl; [exact Hy|]. cbn. intros z Hz. lia.
    + constructor; [exact IH|].
      rewrite sort_insert_Permutation. constructor; [lia | exact Hy].
Qed.

Lemma sort_by_StronglySorted (key : string -> Z) (xs : list string) :
  StronglySorted (fun a b => key a <= key b) (sort_by key xs).
Proof.
  induction xs as [|x rest IH]; [constructor|].
  cbn [sort_by]. by apply sort_insert_StronglySorted.
Qed.

Lemma sort_by_sorted_id (key : string -> Z) (xs : list string) :
  StronglySorted (fun a b => key a <= key b) xs -> sort_by key xs = xs.
Proof.
  induction 1 as [|x rest Hrest IH Hx]; [done|].
  cbn [sort_by]. rewrite IH. destruct Hx as [|y rest' Hy _]; [done|].
  cbn [sort_insert]. destruct (Z.leb_spec (key x - key y) 0); [done | lia].
Qed.

Lemma filter_StronglySorted {A} (R : A -> A -> Prop) (keep : A -> bool)
    (l : list A) :
  StronglySorted R l -> StronglySorted R (List.filter keep l).
Proof.
  induction 1 as [|x rest Hrest IH Hx]; [constructor|].
  cbn [List.filter]. destruct (keep x); [|exact IH].
  constructor; [exact IH|].
  apply Forall_forall. intros y [Hy _]%list_elem_of_In%filter_In.
  apply (proj1 (Forall_forall _ _) Hx). by apply list_elem_of_In.
Qed.

(** X19. The columns come out in the order of [columnOrder]: each column
    has a position in [columnOrder] that is at most the position of every
    column after it, a field that [columnOrder] does not list having
    position -1 and so coming before all listed ones.  Keys that are in
    that order already keep their order; in particular, with an empty
    [columnOrder] the columns are the keys of the first row in their own
    order, without the hidden ones. *)
Theorem sortedFieldIds_in_column_order
    (firstRow : Row) (columnOrder hiddenFields : list string) :
  StronglySorted
    (fun a b => indexOf columnOrder a <= indexOf columnOrder b)
    (sortedFieldIds firstRow columnOrder hiddenFields)
  /\ (forall id, indexOf columnOrder id = -1 <-> id ∉ columnOrder)
  /\ (StronglySorted
        (fun a b => indexOf columnOrder a <= indexOf columnOrder b)
        (List.map fst firstRow) ->
      sortedFieldIds firstRow columnOrder hiddenFields
      = List.filter (fun id => negb (array_includes hiddenFields id))
          (List.map fst firstRow))
  /\ sortedFieldIds firstRow [] hiddenFields
     = List.filter (fun id => negb (array_includes hiddenFields id))
         (List.map fst firstRow).
Proof.
  split; [|split; [|split]].
  - unfold sortedFieldIds. apply filter_StronglySorted, sort_by_StronglySorted.
  - intros id. by apply indexOf_from_absent.
  - intros Hsorted. unfold sortedFieldIds. by rewrite sort_by_sorted_id.
  - unfold sortedFieldIds. rewrite sort_by_sorted_id; [done|].
    generalize (List.map fst firstRow). intros keys.
    induction keys as [|k keys IH]; constructor; [exact IH|].
    apply Forall_forall. by intros.
Qed.

End Facts.

Section Witnesses.
Import DriveExamples.
#[local] Existing Instance backend.

Lemma append_nothing_calls_nothing_witness :
  isEnabled enabledClient = true
  /\ appendToSheet enabledClient "refresh-token" "file-1" [] ∅ true
       (Some "orders") [] ∅ [] expiredToken newWorld
     = (Returned tt,
        {| calls := []; log := [LogInfo "No data to write to the sheet"] |})
  /\ appendCsvToSheet enabledClient "refresh-token" "file-1" [] (Some "orders")
       expiredToken newWorld
     = (Returned tt,
        {| calls := []; log := [LogInfo "No data to write to the sheet"] |}).
Proof.
  split; [reflexivity|].
  apply (append_nothing_calls_nothing enabledClient "refresh-token" "file-1"
           ∅ true (Some "orders") [] ∅ [] expiredToken newWorld).
  reflexivity.
Defined.

(** C5 does not hold as stated: a boxed number in a date-typed column goes
    through the date formatter and comes out as a string, not as the number
    inside the box; and a set in a date-typed column is joined with commas
    without going through the date formatter. *)
Lemma formatCell_boxed_number_in_date_column :
  dateTyped (Some createdMonth) = true
  /\ formatCell (VBoxedNumber 5) (Some createdMonth)
     = VStr (formatDate (VBoxedNumber 5) (Some "MONTH"))
  /\ formatCell (VBoxedNumber 5) (Some createdMonth) <> VNum 5
  /\ formatCell (VSet [VStr "2024-03-01"]) (Some createdMonth)
     = VStr "2024-03-01"
  /\ formatCell (VSet [VStr "2024-03-01"]) (Some createdMonth)
     <> VStr (formatDate (VSet [VStr "2024-03-01"]) (Some "MONTH")).
Proof.
  split; [reflexivity|]. split; [reflexivity|]. split; [discriminate|].
  split; [reflexivity|]. discriminate.
Qed.

Lemma formatCell_in_order_witness :
  formatCell (VStr "2024-03-01") (Some createdMonth)
  = VStr "2024-03-01 by MONTH"
  /\ formatCell (VBoxedNumber 5) (Some status) = VNum 5
  /\ formatCell (VObject []) None = VStr "{}".
Proof.
  split; [|split].
  - pose proof (formatCell_in_order None createdMonth)
      as (_ & _ & Hdate & _ & _).
    apply (Hdate eq_refl eq_refl (VStr "2024-03-01")). reflexivity.
  - pose proof (formatCell_in_order (Some status) status)
      as (_ & _ & _ & Hboxed & _).
    apply (Hboxed eq_refl 5 true "").
  - pose proof (formatCell_in_order None status) as (_ & _ & _ & _ & Hobject).
    apply (Hobject eq_refl []).
Defined.

(** C9 does not hold as stated.  A custom label that is the empty string
    is passed over, and the column is headed by the label of the item map
    (or by the field identifier when the item map has no entry).  And a
    column named after a member that objects inherit, such as
    [constructor], is headed by that member although there is neither a
    custom label nor an item for it: the header is the function [Object],
    not the field identifier. *)
Lemma csvHeader_empty_label_and_inherited_member :
  ({[ "orders_status" := "" ]} : gmap string string) !! "orders_status"
  = Some ""
  /\ csvHeader {[ "orders_status" := status ]} false
       {[ "orders_status" := "" ]} ["orders_status"]
     = [VStr "Status"]
  /\ csvHeader ∅ false {[ "orders_status" := "" ]} ["orders_status"]
     = [VStr "orders_status"]
  /\ csvHeader ∅ false {[ "orders_status" := "" ]} ["orders_status"]
     <> [VStr ""]
  /\ sortedFieldIds [("constructor", VStr "acme")] [] [] = ["constructor"]
  /\ (∅ : gmap string string) !! "constructor" = None
  /\ (∅ : gmap string Item) !! "constructor" = None
  /\ csvHeader ∅ false ∅ ["constructor"]
     = [VFunction "function Object() { [native code] }"]
  /\ csvHeader ∅ false ∅ ["constructor"] <> [VStr "constructor"].
Proof.
  assert (Hlabel : ({[ "orders_status" := "" ]} : gmap string string)
                   !! "orders_status" = Some "")
    by apply lookup_singleton_eq.
  split; [exact Hlabel|].
  unfold csvHeader, headerLabel, customLabelsAt, itemMapAt. cbn [List.map].
  rewrite Hlabel, lookup_singleton_eq, !lookup_empty.
  split; [reflexivity|]. split; [reflexivity|]. split; [discriminate|].
  split; [reflexivity|]. split; [reflexivity|]. split; [reflexivity|].
  split; [reflexivity|]. discriminate.
Qed.

Lemma appendToSheet_header_witness :
  isEnabled enabledClient = true
  /\ headerLabel {[ "orders_status" := status ]} true
       {[ "orders_status" := "Order status" ]} "orders_status"
     = VStr "Order status"
  /\ headerLabel {[ "orders_status" := status ]} true ∅ "orders_status"
     = VStr "Orders Status"
  /\ headerLabel ∅ true ∅ "orders_status" = VStr "orders_status".
Proof.
  split; [reflexivity|].
  split; [|split].
  - pose proof (appendToSheet_header enabledClient "refresh-token" "file-1"
                  [("orders_status", VStr "completed")] []
                  {[ "orders_status" := status ]} true None []
                  {[ "orders_status" := "Order status" ]} [] eq_refl)
      as (_ & Hlabel & _).
    destruct (Hlabel "orders_status") as (Hcustom & _ & _).
    apply Hcustom; [apply lookup_singleton_eq | discriminate].
  - pose proof (appendToSheet_header enabledClient "refresh-token" "file-1"
                  [("orders_status", VStr "completed")] []
                  {[ "orders_status" := status ]} true None []
                  ∅ [] eq_refl)
      as (_ & Hlabel & _).
    destruct (Hlabel "orders_status") as (_ & Hitem & _).
    apply (Hitem (or_intror (conj (lookup_empty _) eq_refl)) status).
    apply lookup_singleton_eq.
  - pose proof (appendToSheet_header enabledClient "refresh-token" "file-1"
                  [("orders_status", VStr "completed")] []
                  ∅ true None [] ∅ [] eq_refl)
      as (_ & Hlabel & _).
    destruct (Hlabel "orders_status") as (_ & _ & Hraw).
    apply (Hraw (or_intror (conj (lookup_empty _) eq_refl)) (lookup_empty _)
             eq_refl).
Defined.



Lemma existing_tab_and_clear_failures_witness :
  isEnabled enabledClient = true
  /\ includes
       "Invalid requests[0].addSheet: A sheet with the name 'orders' already exists."
       "orders" = true
  /\ (exists w',
        appendCsvToSheet enabledClient "refresh-token" "file-1"
          [[VStr "status"]] (Some "orders") (tabCreationFails alreadyExists)
          newWorld
        = (Returned tt, w')
        /\ calls w'
           = [authCall enabledClient "refresh-token";
              authCall enabledClient "refresh-token";
              SpreadsheetsBatchUpdateAddSheet "file-1" "orders";
              ValuesClear "file-1" "orders";
              ValuesUpdate "file-1" "orders!A1" "RAW" [[VStr "status"]]])
  /\ (exists w',
        clearTabName "file-1" None clearDenied newWorld = (Returned tt, w')).
Proof.
  split; [reflexivity|]. split; [reflexivity|].
  split.
  - pose proof (existing_tab_and_clear_failures enabledClient "refresh-token"
                  "file-1" "orders" (tabCreationFails alreadyExists) newWorld
                  alreadyExists
                  {| message :=
                       Some "Invalid requests[0].addSheet: A sheet with the name 'orders' already exists." |}
                  []
                  "Invalid requests[0].addSheet: A sheet with the name 'orders' already exists."
                  eq_refl eq_refl) as Hexisting.
    destruct Hexisting as (_ & Happend & _);
      [discriminate | discriminate | reflexivity | reflexivity |].
    apply (Happend [[VStr "status"]]).
    + intros before. by exists emptySpreadsheet.
    + intros before. reflexivity.
    + intros before. by exists emptySpreadsheet.
    + discriminate.
    + discriminate.
  - pose proof (existing_tab_and_clear_failures enabledClient "refresh-token"
                  "file-1" "orders" clearDenied newWorld
                  alreadyExists
                  {| message :=
                       Some "Invalid requests[0].addSheet: A sheet with the name 'orders' already exists." |}
                  []
                  "Invalid requests[0].addSheet: A sheet with the name 'orders' already exists."
                  eq_refl eq_refl) as Hexisting.
    destruct Hexisting as (_ & _ & Hclear);
      [discriminate | discriminate | reflexivity | reflexivity |].
    destruct (Hclear "file-1" None) as (w' & Hreturns & _).
    by exists w'.
Defined.

Lemma disabled_client_rejects_witness :
  appendToSheet (constructor noSecretConfig) "refresh-token" "file-1" [] ∅
    true None [] ∅ [] allSucceed newWorld
  = (Threw (MissingConfigError "Google Drive is not enabled"), newWorld)
  /\ createNewSheet (constructor noSecretConfig) "refresh-token" "Orders"
       allSucceed newWorld
     = (Threw (MissingConfigError "Google Drive is not enabled"), newWorld).
Proof.
  pose proof (disabled_client_rejects noSecretConfig "refresh-token" "file-1"
                allSucceed newWorld (or_intror eq_refl))
    as (_ & _ & Hsheet & _ & _ & Happend).
  split; [apply Happend | apply Hsheet].
Defined.

Lemma catchForbiddenError_classifies_witness :
  catchForbiddenError (call (SpreadsheetsCreate "Orders"))
    (serviceThrows invalidGrant) newWorld
  = (Threw (ForbiddenError
              "Failed to refresh token: invalid_grant: Token has been expired or revoked."),
     {| calls := [SpreadsheetsCreate "Orders"]; log := [] |})
  /\ catchForbiddenError (call (SpreadsheetsCreate "Orders"))
       (serviceThrows (httpError 500 "Internal error")) newWorld
     = (Threw (Raised (httpError 500 "Internal error")),
        {| calls := [SpreadsheetsCreate "Orders"]; log := [] |}).
Proof.
  split.
  - pose proof (catchForbiddenError_classifies
                  (call (SpreadsheetsCreate "Orders"))
                  (serviceThrows invalidGrant) newWorld)
      as (_ & _ & Hgrant & _).
    apply (Hgrant (Raised invalidGrant)); reflexivity.
  - pose proof (catchForbiddenError_classifies
                  (call (SpreadsheetsCreate "Orders"))
                  (serviceThrows (httpError 500 "Internal error")) newWorld)
      as (_ & _ & _ & Hother).
    apply (Hother (Raised (httpError 500 "Internal error")));
      [reflexivity | discriminate | left; discriminate].
Defined.

Lemma getCredentials_forbidden_on_any_error_witness :
  fst (getCredentials enabledClient "refresh-token"
         (fun _ _ => Throws bare400) newWorld)
  = Threw (ForbiddenError "Failed to get credentials: Error: Bad Request").
Proof.
  pose proof (getCredentials_forbidden_on_any_error enabledClient
                "refresh-token" (fun _ _ => Throws bare400) newWorld)
    as (_ & _ & Hthrows).
  apply (Hthrows bare400). reflexivity.
Defined.

Lemma createNewTab_returns_sanitized_title_witness :
  createNewTab enabledClient "refresh-token" "file-1" "orders: 2024" allSucceed
    newWorld
  = (Returned "orders. 2024",
     {| calls := [authCall enabledClient "refresh-token";
                  SpreadsheetsBatchUpdateAddSheet "file-1" "orders. 2024"];
        log := [] |})
  /\ includes "orders. 2024" ":" = false
  /\ String.length "orders. 2024" = String.length "orders: 2024".
Proof.
  split; [reflexivity|].
  pose proof (createNewTab_returns_sanitized_title enabledClient
                "refresh-token" "file-1" "orders: 2024" allSucceed newWorld
                _ "orders. 2024" eq_refl) as (Hcolon & Hlength & _).
  by split.
Defined.

Lemma createNewTab_drops_other_errors_witness :
  createNewTab enabledClient "refresh-token" "file-1" "orders"
    (tabCreationFails (httpError 403 "The caller does not have permission"))
    newWorld
  = (Returned "orders",
     {| calls := [authCall enabledClient "refresh-token";
                  SpreadsheetsBatchUpdateAddSheet "file-1" "orders"];
        log := [] |}).
Proof.
  apply (createNewTab_drops_other_errors enabledClient "refresh-token"
           "file-1" "orders"
           (tabCreationFails (httpError 403 "The caller does not have permission"))
           newWorld emptySpreadsheet
           (httpError 403 "The caller does not have permission"));
    try reflexivity; try discriminate.
  left. discriminate.
Defined.

Lemma createNewTab_malformed_400_witness :
  fst (createNewTab enabledClient "refresh-token" "file-1" "orders"
         (tabCreationFails bare400) newWorld)
  = Threw TypeError.
Proof.
  pose proof (createNewTab_malformed_400 enabledClient "refresh-token"
                "file-1" "orders" (tabCreationFails bare400) newWorld
                emptySpreadsheet bare400 eq_refl eq_refl eq_refl)
    as Hmalformed.
  destruct Hmalformed as (Hmissing & _);
    [discriminate | discriminate | reflexivity |].
  apply Hmissing. reflexivity.
Defined.

Lemma appendCsvToSheet_named_tab_calls_witness :
  calls (snd (appendCsvToSheet enabledClient "refresh-token" "file-1"
                [[VStr "status"]] (Some "orders: 2024") allSucceed newWorld))
  = [authCall enabledClient "refresh-token";
     authCall enabledClient "refresh-token";
     SpreadsheetsBatchUpdateAddSheet "file-1" "orders. 2024";
     ValuesClear "file-1" "orders: 2024";
     ValuesUpdate "file-1" "orders. 2024!A1" "RAW" [[VStr "status"]]].
Proof.
  pose proof (appendCsvToSheet_named_tab_calls enabledClient "refresh-token"
                "file-1" "orders: 2024" [[VStr "status"]] allSucceed newWorld
                eq_refl) as Hcalls.
  destruct Hcalls as (Hcalls & _).
  - intros before. by exists sheetOne.
  - intros before. by exists sheetOne.
  - discriminate.
  - discriminate.
  - exact Hcalls.
Defined.

Lemma appendCsvToSheet_first_sheet_calls_witness :
  calls (snd (appendCsvToSheet enabledClient "refresh-token" "file-1"
                [[VStr "status"]] None allSucceed newWorld))
  = [authCall enabledClient "refresh-token";
     SpreadsheetsGet "file-1";
     ValuesClear "file-1" "Sheet1";
     ValuesUpdate "file-1" "A1" "RAW" [[VStr "status"]]]
  /\ calls (snd (appendCsvToSheet enabledClient "refresh-token" "file-1"
                   [[VStr "status"]] None noSheets newWorld))
     = [authCall enabledClient "refresh-token";
        SpreadsheetsGet "file-1";
        ValuesUpdate "file-1" "A1" "RAW" [[VStr "status"]]].
Proof.
  split.
  - apply (appendCsvToSheet_first_sheet_calls enabledClient "refresh-token"
             "file-1" [[VStr "status"]] allSucceed newWorld sheetOne sheetOne);
      [reflexivity | reflexivity | reflexivity | discriminate].
  - apply (appendCsvToSheet_first_sheet_calls enabledClient "refresh-token"
             "file-1" [[VStr "status"]] noSheets newWorld emptySpreadsheet
             emptySpreadsheet);
      [reflexivity | reflexivity | reflexivity | discriminate].
Defined.

Lemma uploadMetadata_calls_witness :
  calls (snd (uploadMetadata enabledClient "refresh-token" "file-1" "daily"
                (Some ["orders"; "customers"]) None "1/1/2025, 9:00:00 AM"
                allSucceed newWorld))
  = [authCall enabledClient "refresh-token";
     authCall enabledClient "refresh-token";
     SpreadsheetsBatchUpdateAddSheet "file-1" "metadata";
     ValuesClear "file-1" "metadata";
     ValuesUpdate "file-1" "metadata!A1" "USER_ENTERED"
       [[VStr "The data in this Google Sheet has been automatically synced via Lightdash"];
        [VStr "Update frequency:"; VStr "daily"];
        [VStr "Time of last sync:"; VStr "1/1/2025, 9:00:00 AM"];
        [VStr "Tabs updated"; VStr "orders"];
        [VStr ""; VStr "customers"]]].
Proof.
  pose proof (uploadMetadata_calls enabledClient "refresh-token" "file-1"
                "daily" (Some ["orders"; "customers"]) None
                "1/1/2025, 9:00:00 AM" allSucceed newWorld eq_refl) as Hcalls.
  destruct Hcalls as (Hcalls & _).
  - intros before. by exists sheetOne.
  - intros before. by exists sheetOne.
  - exact Hcalls.
Defined.

Lemma formatCell_stable_witness :
  formatCell (VStr "completed") (Some status) = VStr "completed"
  /\ formatCell (formatCell (VBoxedString "completed") (Some status))
       (Some status)
     = formatCell (VBoxedString "completed") (Some status).
Proof.
  split.
  - by apply (@formatCell_stable backend (VStr "completed") (Some status)
                eq_refl).
  - apply (@formatCell_stable backend (VBoxedString "completed")
             (Some status) eq_refl).
Defined.

Lemma formatCell_never_object_witness :
  objectButDate (formatCell (VObject []) None) = false
  /\ formatCell (get [("orders_status", VStr "completed")] "constructor")
       (Some status)
     = VFunction "function Object() { [native code] }".
Proof.
  pose proof (@formatCell_never_object backend (VObject []) None)
    as (Hnever & _).
  split; [exact Hnever|].
  pose proof (@formatCell_never_object backend VNull (Some status))
    as (_ & Hfunction & _).
  apply (Hfunction _ eq_refl).
Defined.

Lemma appendToSheet_grid_witness :
  exists grid : list (list Value),
    appendToSheet enabledClient "refresh-token" "file-1"
      [[("orders_status", VStr "completed"); ("orders_id", VNum 5)];
       [("orders_id", VNum 0)]]
      ∅ true None ["orders_id"] ∅ []
    = appendCsvToSheet enabledClient "refresh-token" "file-1" grid None
    /\ List.length grid = 3%nat.
Proof.
  destruct (appendToSheet_grid enabledClient "refresh-token" "file-1"
              [("orders_status", VStr "completed"); ("orders_id", VNum 5)]
              [[("orders_id", VNum 0)]]
              ∅ true None ["orders_id"] ∅ [] eq_refl)
    as (grid & Hgrid & Hlength & _).
  by exists grid.
Defined.

Lemma sortedFieldIds_in_column_order_witness :
  sortedFieldIds
    [("orders_status", VStr "completed"); ("orders_id", VNum 5)]
    ["orders_id"; "orders_status"] []
  = ["orders_id"; "orders_status"]
  /\ sortedFieldIds
       [("orders_status", VStr "completed"); ("orders_id", VNum 5)]
       ["orders_status"; "orders_id"] ["orders_id"]
     = ["orders_status"].
Proof.
  split; [reflexivity|].
  pose proof (sortedFieldIds_in_column_order
                [("orders_status", VStr "completed"); ("orders_id", VNum 5)]
                ["orders_status"; "orders_id"] ["orders_id"])
    as (_ & _ & Hkept & _).
  apply Hkept. repeat constructor; vm_compute; discriminate.
Defined.

End Witnesses.

End GoogleDriveFacts.

(** ** Properties of the table component *)

Module SimpleTableFacts.
Import Js SimpleTable.

Section Facts.
Context `{Common}.

(** X20. The flat table is rendered exactly when the configuration is a
    table configuration, nothing is loading, there is no results error and
    no pivot error, and the pivot is neither loading nor has data. *)
Theorem SimpleTable_renders_table_iff
    (props : SimpleTableProps) (ctx : VisualizationContext) :
  (exists table, SimpleTable props ctx = TableBox table)
  <-> exists chartConfig,
        visualizationConfig ctx = TableVisualization chartConfig
        /\ isLoading ctx = false
        /\ truthy_string (error chartConfig) = false
        /\ truthy_string (pivot_error (pivotTableData chartConfig)) = false
        /\ pivot_loading (pivotTableData chartConfig) = false
        /\ pivot_data (pivotTableData chartConfig) = None.
Proof.
  unfold SimpleTable. split.
  - intros [table Hrender].
    destruct (visualizationConfig ctx) as [chartConfig|]; [|discriminate].
    exists chartConfig.
    destruct (isLoading ctx); [discriminate|].
    destruct (truthy_string (error chartConfig)); [discriminate|].
    destruct (truthy_string (pivot_error _)); [discriminate|].
    destruct (pivot_loading _); [discriminate|].
    by destruct (pivot_data _).
  - intros (chartConfig & -> & -> & -> & -> & -> & ->). by eexists.
Qed.

(** X21. Loading comes before every error, and the results error before
    the pivot error: while the context is loading, a table configuration
    renders the loading placeholder whatever errors it carries; and when
    the error placeholder is rendered, nothing is loading and its
    description is the non-empty results error, or else the non-empty
    pivot error.  A configuration of another kind renders nothing. *)
Theorem SimpleTable_loading_then_errors
    (props : SimpleTableProps) (ctx : VisualizationContext) :
  (forall chartConfig,
     visualizationConfig ctx = TableVisualization chartConfig ->
     isLoading ctx = true ->
     SimpleTable props ctx = LoadingChart)
  /\ (forall title description,
        SimpleTable props ctx = SuboptimalState title description ->
        title = "Results not available"
        /\ description <> ""
        /\ isLoading ctx = false
        /\ exists chartConfig,
             visualizationConfig ctx = TableVisualization chartConfig
             /\ (error chartConfig = Some description
                 \/ truthy_string (error chartConfig) = false
                    /\ pivot_error (pivotTableData chartConfig)
                       = Some description))
  /\ (forall other,
        visualizationConfig ctx = OtherVisualization other ->
        SimpleTable props ctx = Null).
Proof.
  unfold SimpleTable. split; [|split].
  - by intros chartConfig -> ->.
  - intros title description.
    destruct (visualizationConfig ctx) as [chartConfig|]; [|discriminate].
    destruct (isLoading ctx); [discriminate|].
    destruct (error chartConfig) as [text|] eqn:Herror; cbn [truthy_string].
    + destruct (String.eqb_spec text "") as [->|Hne]; cbn [negb].
      * destruct (pivot_error _) as [ptext|] eqn:Hpivot; cbn [truthy_string].
        -- destruct (String.eqb_spec ptext "") as [->|Hpne]; cbn [negb].
           ++ by destruct (_ || _).
           ++ intros [= <- <-]. repeat split; try done.
              exists chartConfig. split; [done|]. right.
              by rewrite Herror.
        -- by destruct (_ || _).
      * intros [= <- <-]. repeat split; try done.
        exists chartConfig. split; [done|]. left. by rewrite Herror.
    + destruct (pivot_error _) as [ptext|] eqn:Hpivot; cbn [truthy_string].
      * destruct (String.eqb_spec ptext "") as [->|Hpne]; cbn [negb].
        -- by destruct (_ || _).
        -- intros [= <- <-]. repeat split; try done.
           exists chartConfig. split; [done|]. right. by rewrite Herror.
      * by destruct (_ || _).
  - by intros other ->.
Qed.

(** X22. The pivot box shows the pivot table exactly when pivot data is
    there, also while the pivot is still loading, and the loading
    placeholder otherwise; it shows the result count, which is the row
    count of the pivot data, exactly when the data is there and
    [showResultsTotal] is true. *)
Theorem SimpleTable_pivot_box
    (props : SimpleTableProps) (ctx : VisualizationContext)
    (pb : string) (table : option PivotTableElement) (resultCount : option Z) :
  SimpleTable props ctx = PivotBox pb table resultCount ->
  exists chartConfig,
    visualizationConfig ctx = TableVisualization chartConfig
    /\ pe_data <$> table = pivot_data (pivotTableData chartConfig)
    /\ (table = None -> pivot_loading (pivotTableData chartConfig) = true)
    /\ resultCount
       = (if bool_decide (showResultsTotal chartConfig = Some true)
          then rowsCount <$> pivot_data (pivotTableData chartConfig)
          else None)
    /\ pb = (if bool_decide (showResultsTotal chartConfig = Some true)
             then "xxl" else "xl").
Proof.
  unfold SimpleTable.
  destruct (visualizationConfig ctx) as [chartConfig|]; [|discriminate].
  destruct (isLoading ctx); [discriminate|].
  destruct (truthy_string (error chartConfig)); [discriminate|].
  destruct (truthy_string (pivot_error _)); [discriminate|].
  destruct (pivot_loading _) eqn:Hloading;
    destruct (pivot_data _) as [data|] eqn:Hdata;
    cbn [orb bool_decide]; try discriminate;
    rewrite ?bool_decide_true by (by eexists);
    try (rewrite bool_decide_false by (by intros [? ?])); try discriminate;
    intros [= <- <- <-]; exists chartConfig; rewrite ?Hdata; by repeat split.
Qed.

(** X23. The context menus of the flat table.  The cell menu is the
    minimal one exactly when [minimal] is set; the header menu is there
    exactly when the cell menu is the dashboard one, which is exactly when
    the table is not minimal, is on a dashboard and has a non-empty tile
    identifier, and the header menu then carries that tile identifier. *)
Theorem SimpleTable_context_menus
    (props : SimpleTableProps) (ctx : VisualizationContext)
    (table : TableElement) :
  SimpleTable props ctx = TableBox table ->
  (te_cellContextMenu table = MinimalCellContextMenu
   <-> minimal props = Some true)
  /\ (is_Some (te_headerContextMenu table)
      <-> te_cellContextMenu table = DashboardCellContextMenu (itemsMap ctx))
  /\ (is_Some (te_headerContextMenu table)
      <-> minimal props <> Some true
          /\ isDashboard props = true
          /\ exists tile, tileUuid props = Some tile /\ tile <> "")
  /\ (forall tile,
        te_headerContextMenu table = Some (DashboardHeaderContextMenu tile) ->
        tileUuid props = Some tile).
Proof.
  unfold SimpleTable.
  destruct (visualizationConfig ctx) as [chartConfig|]; [|discriminate].
  destruct (isLoading ctx); [discriminate|].
  destruct (truthy_string (error chartConfig)); [discriminate|].
  destruct (truthy_string (pivot_error _)); [discriminate|].
  destruct (_ || _); [discriminate|].
  intros [= <-]. cbn [te_cellContextMenu te_headerContextMenu].
  unfold headerContextMenu, cellContextMenu.
  destruct (minimal props) as [[|]|], (isDashboard props),
    (tileUuid props) as [tile|];
    cbn [default from_option id negb andb truthy_string template];
    try destruct (String.eqb_spec tile "") as [->|Htile]; cbn [negb];
    (split; [|split; [|split]]);
    try (split; (done || by intros [? [=]] || by intros [? ?]
                 || by intros (? & ? & ? & ? & ?)
                 || by intros (? & ? & ? & [=] & ?)));
    try (by intros ? [=]);
    try (by intros ? [= ->]).
  all: try (split; [by intros _; repeat split; eauto | by eexists]).
  all: try (split; [by intros [? [=]] | by intros (? & ? & t & [= <-] & ?)]).
Qed.

End Facts.

Section Witnesses.
Import TableExamples.
#[local] Existing Instance frontend.

Lemma SimpleTable_renders_table_iff_witness :
  exists table,
    SimpleTable (tileProps None)
      (context false (TableVisualization (tableConfig None noPivot)))
    = TableBox table.
Proof.
  apply SimpleTable_renders_table_iff.
  exists (tableConfig None noPivot). by repeat split.
Defined.

Lemma SimpleTable_loading_then_errors_witness :
  SimpleTable (tileProps None)
    (context true
       (TableVisualization (tableConfig (Some "Query failed") noPivot)))
  = LoadingChart.
Proof.
  pose proof (SimpleTable_loading_then_errors (tileProps None)
                (context true
                   (TableVisualization
                      (tableConfig (Some "Query failed") noPivot))))
    as (Hloading & _).
  by apply (Hloading (tableConfig (Some "Query failed") noPivot)).
Defined.

Lemma SimpleTable_pivot_box_witness :
  exists table,
    SimpleTable (tileProps None)
      (context false (TableVisualization (tableConfig None loadedPivot)))
    = PivotBox "xxl" (Some table) (Some 1)
    /\ pe_data table = ["pivot-row"].
Proof.
  eexists. split; [reflexivity|].
  destruct (SimpleTable_pivot_box (tileProps None)
              (context false
                 (TableVisualization (tableConfig None loadedPivot)))
              _ _ _ eq_refl)
    as (chartConfig & Hconfig & Hdata & _).
  unfold context in Hconfig. cbn [visualizationConfig] in Hconfig.
  injection Hconfig as <-. exact (f_equal (default []) Hdata).
Defined.

Lemma SimpleTable_context_menus_witness :
  exists table,
    SimpleTable (tileProps None)
      (context false (TableVisualization (tableConfig None noPivot)))
    = TableBox table
    /\ te_cellContextMenu table = DashboardCellContextMenu ["orders_status"].
Proof.
  eexists. split; [reflexivity|].
  pose proof (SimpleTable_context_menus (tileProps None)
                (context false (TableVisualization (tableConfig None noPivot)))
                _ eq_refl) as (_ & Hheader & Hdashboard & _).
  apply Hheader, Hdashboard.
  split; [discriminate|]. split; [reflexivity|].
  exists "tile-1". by split.
Defined.

End Witnesses.

End SimpleTableFacts.
